(** * Uniswap V3 swap decoder: a shallow embedding of
      [uniswap_v3_tx_decoder.py] and the properties of its specification.

    The Python program is embedded function by function, under the names it
    has in the source.  Conventions of the embedding:

    - [str] is [string] (a sequence of 8-bit characters; [str.lower] acts on
      the ASCII letters), [int] is [Z], [bytes] is [list Z] with entries in
      [0, 256).
    - A value typed [Any] in the source (JSON-RPC bodies, results, receipts,
      logs) is a [json] value; numbers are integers.  The dynamic operations
      the program applies to such values ([x.get(k)], [x[k]], [not x], ...)
      are the functions of module [Py], which raise the exception Python
      raises when the value has another type.
    - A Python exception is a value of type [exn]; a function that may raise
      returns [result A = exn + A].
    - [JsonRpcClient] methods thread the client object and the network; the
      network is an arbitrary deterministic state machine [post] together
      with the log of the requests sent so far.
    - Library code ([decimal], [bytes.fromhex], [int(s, 16)], [eth_abi],
      [requests]) is embedded as far as the program uses it. *)

From Stdlib Require Import ZArith Lia Ascii String List Bool.
From Stdlib Require Import DecimalString DecimalPos DecimalZ.
From stdpp Require Import base option list countable gmap strings.

Set Warnings "-register-all".
Local Open Scope string_scope.
Local Open Scope Z_scope.
Local Open Scope list_scope.

(* ------------------------------------------------------------------ *)
(** * Exceptions and results *)

(** JSON values, as [json.loads] (through [response.json()]) builds them:
    [None], [bool], [int], [str], [list], [dict].  A dict is kept as its
    association list; a key is looked up at its first occurrence. *)
Inductive json : Type :=
| JNull
| JBool (b : bool)
| JInt (z : Z)
| JStr (s : string)
| JArr (xs : list json)
| JObj (kvs : list (string * json)).

(** The exceptions of the program.  [RpcError] is the program's own class;
    its argument records how the message was built. *)
Inductive exn : Type :=
| RpcError (arg : rpc_arg)
| KeyError
| IndexError
| TypeError
| AttributeError
| ValueError
| RequestException (detail : string)   (* raised by [requests.post] *)
| HTTPError (status : Z)               (* raised by [raise_for_status] *)
| JSONDecodeError                      (* raised by [response.json()] *)
| InsufficientDataBytes                (* eth_abi *)
| NonEmptyPaddingBytes                 (* eth_abi *)
| DecimalOverflow                      (* decimal.Overflow *)
| DecimalDivisionByZero                (* decimal.DivisionByZero *)
| DecimalInvalidOperation              (* decimal.InvalidOperation *)
with rpc_arg : Type :=
| RpcUrlEmpty                          (* "RPC_URL is empty" *)
| ErrorMember (err : json)             (* RpcError(body["error"]) *)
| AllEndpointsFailed (method : string) (last_error : option exn)
| ReceiptNotFound (tx_hash : string)
| TransactionFailed (tx_hash : string)
| NoSwapEvent (tx_hash : string)
| UnexpectedSwapAmounts (pool : json) (amount0 amount1 : Z)
| SenderNotFound.

Definition result (A : Type) : Type := exn + A.
Definition Ok {A} (a : A) : result A := inr a.
Definition Raise {A} (e : exn) : result A := inl e.
Arguments Ok {A} a /.
Arguments Raise {A} e /.

Definition rbind {A B} (r : result A) (k : A -> result B) : result B :=
  match r with
  | inl e => inl e
  | inr a => k a
  end.

(** [result] is an error monad; sequencing is written [x ← r; k]. *)
#[global] Instance result_ret : MRet result := @Ok.
#[global] Instance result_bind : MBind result := fun A B k r => rbind r k.

(* ------------------------------------------------------------------ *)
(** * Python built-ins used by the program *)

Module Py.

(** ** Strings *)

Definition is_upper (c : ascii) : bool :=
  let n := nat_of_ascii c in (65 <=? n)%nat && (n <=? 90)%nat.

Definition lower_char (c : ascii) : ascii :=
  if is_upper c then ascii_of_nat (nat_of_ascii c + 32) else c.

(** [s.lower()] *)
Fixpoint lower (s : string) : string :=
  match s with
  | EmptyString => EmptyString
  | String c s' => String (lower_char c) (lower s')
  end.

Fixpoint is_prefix (p s : string) : bool :=
  match p, s with
  | EmptyString, _ => true
  | String c p', String d s' => Ascii.eqb c d && is_prefix p' s'
  | String _ _, EmptyString => false
  end.

(** [s.startswith(p)] *)
Definition startswith (s p : string) : bool := is_prefix p s.

(** [s.replace("0x", "")]: every occurrence of "0x", scanning from the
    left, is removed. *)
Fixpoint replace_0x (s : string) : string :=
  match s with
  | EmptyString => EmptyString
  | String c s' =>
      match s' with
      | String d s'' =>
          if (Ascii.eqb c "0"%char && Ascii.eqb d "x"%char)%bool
          then replace_0x s''
          else String c (replace_0x s')
      | EmptyString => String c EmptyString
      end
  end.

(** [s[n:]] for [n >= 0] *)
Fixpoint drop_chars (n : nat) (s : string) : string :=
  match n, s with
  | O, _ => s
  | S n', String _ s' => drop_chars n' s'
  | S _, EmptyString => EmptyString
  end.

(** [s[-n:]] for [n > 0]: the last [n] characters, or all of [s]. *)
Definition last_chars (n : nat) (s : string) : string :=
  drop_chars (String.length s - n) s.

(** [str(z)] for an int *)
Definition str_int (z : Z) : string :=
  NilZero.string_of_int (Z.to_int z).

(** ** Truth value, membership, subscripts on [Any] values *)

(** [bool(x)] *)
Definition truthy (j : json) : bool :=
  match j with
  | JNull => false
  | JBool b => b
  | JInt z => negb (z =? 0)
  | JStr s => negb (String.eqb s "")
  | JArr xs => match xs with [] => false | _ => true end
  | JObj kvs => match kvs with [] => false | _ => true end
  end.

Fixpoint assoc (k : string) (kvs : list (string * json)) : option json :=
  match kvs with
  | [] => None
  | (k', v) :: rest => if String.eqb k k' then Some v else assoc k rest
  end.

(** [x.get(k, default)]: only a dict has the method. *)
Definition get (x : json) (k : string) (default : json) : result json :=
  match x with
  | JObj kvs => Ok (match assoc k kvs with Some v => v | None => default end)
  | _ => Raise AttributeError
  end.

(** [x[k]] for a str key [k] *)
Definition getitem (x : json) (k : string) : result json :=
  match x with
  | JObj kvs => match assoc k kvs with Some v => Ok v | None => Raise KeyError end
  | _ => Raise TypeError
  end.

Fixpoint nth_char (i : nat) (s : string) : option ascii :=
  match s, i with
  | EmptyString, _ => None
  | String c _, O => Some c
  | String _ s', S i' => nth_char i' s'
  end.

(** [x[i]] for an int [i >= 0] *)
Definition index (x : json) (i : nat) : result json :=
  match x with
  | JArr xs => match nth_error xs i with Some v => Ok v | None => Raise IndexError end
  | JStr s => match nth_char i s with
              | Some c => Ok (JStr (String c EmptyString))
              | None => Raise IndexError
              end
  | JObj _ => Raise KeyError
  | _ => Raise TypeError
  end.

(** [len(x)] *)
Definition len (x : json) : result nat :=
  match x with
  | JArr xs => Ok (List.length xs)
  | JStr s => Ok (String.length s)
  | JObj kvs => Ok (List.length kvs)
  | _ => Raise TypeError
  end.

Fixpoint chars (s : string) : list json :=
  match s with
  | EmptyString => []
  | String c s' => JStr (String c EmptyString) :: chars s'
  end.

(** The items [for x in v] goes through. *)
Definition iter (v : json) : result (list json) :=
  match v with
  | JArr xs => Ok xs
  | JStr s => Ok (chars s)
  | JObj kvs => Ok (map (fun kv => JStr (fst kv)) kvs)
  | _ => Raise TypeError
  end.

(** [x == s] for a str [s] *)
Definition eq_str (x : json) (s : string) : bool :=
  match x with
  | JStr t => String.eqb t s
  | _ => false
  end.

Fixpoint contains_substring (needle hay : string) : bool :=
  is_prefix needle hay ||
  match hay with
  | EmptyString => false
  | String _ hay' => contains_substring needle hay'
  end.

(** [k in x] for a str [k] *)
Definition contains (x : json) (k : string) : result bool :=
  match x with
  | JObj kvs => Ok (match assoc k kvs with Some _ => true | None => false end)
  | JArr xs => Ok (existsb (fun v => eq_str v k) xs)
  | JStr s => Ok (contains_substring k s)
  | _ => Raise TypeError
  end.

(** [x.lower()]: only a str has the method. *)
Definition lower_any (x : json) : result string :=
  match x with
  | JStr s => Ok (lower s)
  | _ => Raise AttributeError
  end.

(** [x[-n:]] followed by a use as a str (["0x" + x[-n:]]): the slice of a
    list is a list, and the concatenation raises. *)
Definition last_chars_any (n : nat) (x : json) : result string :=
  match x with
  | JStr s => Ok (last_chars n s)
  | _ => Raise TypeError
  end.

(** ** Hexadecimal text *)

(** ASCII white space, as [bytes.fromhex] and [int] skip it. *)
Definition is_space (c : ascii) : bool :=
  let n := nat_of_ascii c in ((9 <=? n)%nat && (n <=? 13)%nat) || (n =? 32)%nat.

Definition hex_digit (c : ascii) : option Z :=
  let n := Z.of_nat (nat_of_ascii c) in
  if (48 <=? n) && (n <=? 57) then Some (n - 48)
  else if (97 <=? n) && (n <=? 102) then Some (n - 87)
  else if (65 <=? n) && (n <=? 70) then Some (n - 55)
  else None.

Fixpoint lstrip (s : string) : string :=
  match s with
  | String c s' => if is_space c then lstrip s' else s
  | EmptyString => EmptyString
  end.

(** [bytes.fromhex(s)]: pairs of hexadecimal digits, white space allowed
    around the pairs but not inside one. *)
Fixpoint fromhex (s : string) : result (list Z) :=
  match s with
  | EmptyString => Ok []
  | String c s' =>
      if is_space c then fromhex s'
      else
        match hex_digit c, s' with
        | Some top, String d s'' =>
            match hex_digit d with
            | Some bot => bs ← fromhex s''; Ok ((top * 16 + bot) :: bs)
            | None => Raise ValueError
            end
        | _, _ => Raise ValueError
        end
  end.

(** The digits of [int(s, 16)]: hexadecimal digits, single underscores
    between them; returns the value and the text after the digits. *)
Fixpoint int_digits (s : string) (prev_underscore seen : bool) (acc : Z)
  : option (Z * string) :=
  let stop (rest : string) :=
    if prev_underscore then None
    else if seen then Some (acc, rest) else None in
  match s with
  | EmptyString => stop EmptyString
  | String c s' =>
      if Ascii.eqb c "_"%char
      then (if prev_underscore then None else int_digits s' true seen acc)
      else match hex_digit c with
           | Some d => int_digits s' false true (acc * 16 + d)
           | None => stop s
           end
  end.

Definition skip_sign (s : string) : bool * string :=
  match s with
  | String "-"%char s' => (true, s')
  | String "+"%char s' => (false, s')
  | _ => (false, s)
  end.

Definition skip_0x (s : string) : string :=
  match s with
  | String "0"%char (String x s') =>
      if Ascii.eqb x "x"%char || Ascii.eqb x "X"%char
      then match s' with
           | String "_"%char s'' => s''
           | _ => s'
           end
      else s
  | _ => s
  end.

(** [int(s, 16)] for a str [s] *)
Definition int_base16 (s : string) : result Z :=
  let (negative, body) := skip_sign (lstrip s) in
  let digits := skip_0x body in
  match digits with
  | String "_"%char _ => Raise ValueError
  | _ =>
      match int_digits digits false false 0 with
      | Some (v, rest) =>
          match lstrip rest with
          | EmptyString => Ok (if negative then - v else v)
          | _ => Raise ValueError
          end
      | None => Raise ValueError
      end
  end.

(** [int(x, 16)]: a value that is not a str raises. *)
Definition int_base16_any (x : json) : result Z :=
  match x with
  | JStr s => int_base16 s
  | _ => Raise TypeError
  end.

(** ** Dict keys *)

(** The keys a JSON scalar is as a dict key: [False == 0] and [True == 1]
    are the same keys as the ints. *)
Inductive dict_key : Type :=
| KNone
| KInt (z : Z)
| KStr (s : string).

#[global] Instance dict_key_eq_dec : EqDecision dict_key.
Proof. solve_decision. Defined.

#[global] Instance dict_key_countable : Countable dict_key :=
  inj_countable'
    (fun k => match k with
              | KNone => inl ()
              | KInt z => inr (inl z)
              | KStr s => inr (inr s)
              end)
    (fun c => match c with
              | inl _ => KNone
              | inr (inl z) => KInt z
              | inr (inr s) => KStr s
              end)
    (fun k => match k with KNone | KInt _ | KStr _ => eq_refl end).

(** Hashing [x] for [x in d] and [d[x] = v]: a list or a dict is
    unhashable. *)
Definition hash_key (x : json) : result dict_key :=
  match x with
  | JNull => Ok KNone
  | JBool b => Ok (KInt (if b then 1 else 0))
  | JInt z => Ok (KInt z)
  | JStr s => Ok (KStr s)
  | JArr _ | JObj _ => Raise TypeError
  end.

(** [x[n:]] passed on to [bytes.fromhex]: a value that is not a str
    raises there at the latest. *)
Definition drop_chars_any (n : nat) (x : json) : result string :=
  match x with
  | JStr s => Ok (drop_chars n s)
  | _ => Raise TypeError
  end.

End Py.

(* ------------------------------------------------------------------ *)
(** * The [decimal] module, as [format_amount] uses it

    A finite [Decimal] is a sign, a coefficient and an exponent.  The
    context is the default one with [getcontext().prec = 78]: rounding
    half-even, [Emax = 999999], [Emin = -999999], and the traps
    [InvalidOperation], [DivisionByZero] and [Overflow] enabled (a trapped
    signal raises; the other signals only set flags). *)

Module Decimal.

Record t : Type := mk { sign : bool; coeff : Z; exp : Z }.

Definition prec : Z := 78.
Definition Emax : Z := 999999.
Definition Emin : Z := -999999.
Definition Etiny : Z := Emin - prec + 1.
Definition Etop : Z := Emax - prec + 1.

(** [len(self._int)], the number of digits of the coefficient *)
Definition ndigits (c : Z) : Z := Z.of_nat (String.length (Py.str_int c)).

(** [Decimal(z)] for an int [z] *)
Definition of_int (z : Z) : t := mk (z <? 0) (Z.abs z) 0.

(** [_fix]: round to [prec] digits and check the exponent range. *)
Definition fix_ (d : t) : result t :=
  if coeff d =? 0 then
    Ok (mk (sign d) 0 (Z.min (Z.max (exp d) Etiny) Emax))
  else
    let exp_min := ndigits (coeff d) + exp d - prec in
    if Etop <? exp_min then Raise DecimalOverflow
    else
      let exp_min := Z.max exp_min Etiny in
      if exp d <? exp_min then
        let digits := ndigits (coeff d) + exp d - exp_min in
        let '(c, digits) :=
          if digits <? 0 then (1, 0) else (coeff d, digits) in
        let dropped := ndigits c - digits in
        let q := c / 10 ^ dropped in
        let r := c mod 10 ^ dropped in
        let half := 5 * 10 ^ (dropped - 1) in
        let up := (half <? r) || ((r =? half) && Z.odd q) in
        let rounded := if up then q + 1 else q in
        let '(rounded, exp_min) :=
          if up && (prec <? ndigits rounded)
          then (rounded / 10, exp_min + 1) else (rounded, exp_min) in
        if Etop <? exp_min then Raise DecimalOverflow
        else Ok (mk (sign d) rounded exp_min)
      else Ok d.

(** [Decimal(10) ** Decimal(n)] for an int [n]: [__pow__] at the base 10,
    where [_power_exact] always answers. *)
Definition pow_ten (n : Z) : result t :=
  if n =? 0 then Ok (mk false 1 0)
  else
    let bound := ndigits (Z.abs n) - 1 in
    if 0 <? n then
      if ndigits Emax <=? bound then fix_ (mk false 1 (Emax + 1))
      else
        let zeros := Z.min n prec in
        fix_ (mk false (10 ^ zeros) (n - zeros))
    else
      if ndigits (- Etiny) <=? bound then fix_ (mk false 1 (Etiny - 1))
      else fix_ (mk false 1 n).

(** The loop of [__truediv__] that brings an exact quotient towards the
    ideal exponent. *)
Fixpoint strip_zeros (fuel : nat) (c e ideal : Z) : Z * Z :=
  match fuel with
  | O => (c, e)
  | S fuel' =>
      if (e <? ideal) && (c mod 10 =? 0)
      then strip_zeros fuel' (c / 10) (e + 1) ideal
      else (c, e)
  end.

(** [a / b] *)
Definition truediv (a b : t) : result t :=
  let s := xorb (sign a) (sign b) in
  if coeff b =? 0 then
    if coeff a =? 0 then Raise DecimalInvalidOperation
    else Raise DecimalDivisionByZero
  else if coeff a =? 0 then fix_ (mk s 0 (exp a - exp b))
  else
    let shift := ndigits (coeff b) - ndigits (coeff a) + prec + 1 in
    let e := exp a - exp b - shift in
    let '(q, r) :=
      if 0 <=? shift
      then Z.div_eucl (coeff a * 10 ^ shift) (coeff b)
      else Z.div_eucl (coeff a) (coeff b * 10 ^ (- shift)) in
    let '(c, e) :=
      if r =? 0
      then strip_zeros (Z.to_nat (exp a - exp b - e)) q e (exp a - exp b)
      else (if q mod 5 =? 0 then q + 1 else q, e) in
    fix_ (mk s c e).

Fixpoint zeros (n : nat) : string :=
  match n with
  | O => EmptyString
  | S n' => String "0"%char (zeros n')
  end.

(** [str(d)]: scientific notation, the exponent printed with ["%+d"]. *)
Definition to_str (d : t) : string :=
  let digits := Py.str_int (coeff d) in
  let len := ndigits (coeff d) in
  let leftdigits := exp d + len in
  let dotplace :=
    if (exp d <=? 0) && (-6 <? leftdigits) then leftdigits else 1 in
  let mantissa :=
    if dotplace <=? 0
    then "0." +:+ zeros (Z.to_nat (- dotplace)) +:+ digits
    else if len <=? dotplace
    then digits +:+ zeros (Z.to_nat (dotplace - len))
    else String.substring 0 (Z.to_nat dotplace) digits
         +:+ "." +:+ Py.drop_chars (Z.to_nat dotplace) digits in
  let exponent :=
    if leftdigits =? dotplace then ""
    else "E" +:+ (if leftdigits - dotplace <? 0 then "-" else "+")
             +:+ Py.str_int (Z.abs (leftdigits - dotplace)) in
  (if sign d then "-" else "") +:+ mantissa +:+ exponent.

End Decimal.

(* ------------------------------------------------------------------ *)
(** * [eth_abi.decode] for the five static fields of a Swap event *)

Module Abi.

(** [big_endian_to_int] *)
Definition big_endian_to_int (bs : list Z) : Z :=
  fold_left (fun acc b => acc * 256 + b) bs 0.

(** [read_data_from_stream]: the next 32-byte word of the stream. *)
Definition read_word (stream : list Z) : result (list Z * list Z) :=
  if (List.length stream <? 32)%nat then Raise InsufficientDataBytes
  else Ok (firstn 32 stream, skipn 32 stream).

Definition all_bytes (b : Z) (bs : list Z) : bool :=
  forallb (Z.eqb b) bs.

(** [uint<bits>]: the value sits in the low [bits / 8] bytes and the
    padding before it must be zero. *)
Definition decode_uint (bits : nat) (word : list Z) : result Z :=
  let padding_size := (32 - bits / 8)%nat in
  let value := big_endian_to_int (skipn padding_size word) in
  if all_bytes 0 (firstn padding_size word) then Ok value
  else Raise NonEmptyPaddingBytes.

(** [int<bits>]: two's complement; the padding repeats the sign. *)
Definition decode_int (bits : nat) (word : list Z) : result Z :=
  let padding_size := (32 - bits / 8)%nat in
  let raw := big_endian_to_int (skipn padding_size word) in
  let value :=
    if 2 ^ (Z.of_nat bits - 1) <=? raw then raw - 2 ^ Z.of_nat bits else raw in
  if all_bytes (if 0 <=? value then 0 else 255) (firstn padding_size word)
  then Ok value
  else Raise NonEmptyPaddingBytes.

(** [decode(["int256", "int256", "uint160", "uint128", "int24"], data)] *)
Definition decode_swap_data (data : list Z) : result (Z * Z * Z * Z * Z) :=
  '(w0, rest) ← read_word data;
  amount0 ← decode_int 256 w0;
  '(w1, rest) ← read_word rest;
  amount1 ← decode_int 256 w1;
  '(w2, rest) ← read_word rest;
  sqrt_price ← decode_uint 160 w2;
  '(w3, rest) ← read_word rest;
  liquidity ← decode_uint 128 w3;
  '(w4, rest) ← read_word rest;
  tick ← decode_int 24 w4;
  Ok (amount0, amount1, sqrt_price, liquidity, tick).

End Abi.

(* ------------------------------------------------------------------ *)
(** * The program *)

Definition SWAP_EVENT_SIG : string :=
  "c42079f94a6350d7e6235f29174924f928cc2ac818eb64fed8004e115fbcca67".

Definition TOKEN0_SELECTOR : string := "0x0dfe1681".
Definition TOKEN1_SELECTOR : string := "0xd21220a7".
Definition DECIMALS_SELECTOR : string := "0x313ce567".

(** [normalize_address(addr)] for a str *)
Definition normalize_address (addr : string) : string :=
  if String.eqb addr "" then addr
  else
    let addr := Py.lower addr in
    if Py.startswith addr "0x" then addr else "0x" +:+ addr.


(** [format_amount(value, decimals)] *)
Definition format_amount (value decimals : Z) : result string :=
  if decimals =? 0 then Ok (Py.str_int value)
  else
    scale ← Decimal.pow_ten decimals;
    quotient ← Decimal.truediv (Decimal.of_int value) scale;
    Ok (Decimal.to_str quotient).

(** [normalize_address(addr)] for a value of any type: a falsy value is
    returned as it is, and [addr.lower()] needs a str. *)
Definition normalize_address_any (addr : json) : result json :=
  if negb (Py.truthy addr) then Ok addr
  else
    addr ← Py.lower_any addr;
    Ok (JStr (if Py.startswith addr "0x" then addr else "0x" +:+ addr)).

(** [decode_address(topic)] for a value of any type *)
Definition decode_address_any (topic : json) : result string :=
  tail ← Py.last_chars_any 40 topic;
  Ok (normalize_address ("0x" +:+ tail)).

(** The dataclass [SwapEvent].  The annotation [pool: str] is not enforced:
    [pool] is whatever [normalize_address(log["address"])] returned. *)
Record SwapEvent : Type := {
  pool : json;
  sender : string;
  recipient : string;
  amount0 : Z;
  amount1 : Z
}.

(** The body of the loop of [parse_swap_logs]: [None] is [continue]. *)
Definition parse_swap_log (log : json) : result (option SwapEvent) :=
  topics ← Py.get log "topics" (JArr []);
  if negb (Py.truthy topics) then Ok None
  else
    topic0 ← Py.index topics 0;
    topic0 ← Py.lower_any topic0;
    if negb (String.eqb (Py.replace_0x topic0) SWAP_EVENT_SIG) then Ok None
    else
      n ← Py.len topics;
      if (n <? 3)%nat then Ok None
      else
        topic1 ← Py.index topics 1;
        sender ← decode_address_any topic1;
        topic2 ← Py.index topics 2;
        recipient ← decode_address_any topic2;
        data ← Py.getitem log "data";
        data ← Py.drop_chars_any 2 data;
        data_bytes ← Py.fromhex data;
        '(amount0, amount1, _, _, _) ← Abi.decode_swap_data data_bytes;
        address ← Py.getitem log "address";
        pool ← normalize_address_any address;
        Ok (Some {| pool := pool; sender := sender; recipient := recipient;
                    amount0 := amount0; amount1 := amount1 |}).

Fixpoint parse_swap_logs_loop (logs : list json) (swaps : list SwapEvent)
  : result (list SwapEvent) :=
  match logs with
  | [] => Ok swaps
  | log :: logs' =>
      swap ← parse_swap_log log;
      match swap with
      | None => parse_swap_logs_loop logs' swaps
      | Some swap => parse_swap_logs_loop logs' (swaps ++ [swap])
      end
  end.

(** [parse_swap_logs(receipt)] *)
Definition parse_swap_logs (receipt : json) : result (list SwapEvent) :=
  logs ← Py.get receipt "logs" (JArr []);
  logs ← Py.iter logs;
  parse_swap_logs_loop logs [].

(* ------------------------------------------------------------------ *)
(** * The RPC client and the network *)

(** What [requests.post] gives back: it raises, or it returns a response
    with a status code and a body; [body_json] is [None] when the body is
    not JSON and [response.json()] raises. *)
Record Response : Type := {
  status_code : Z;
  body_json : option json
}.

Inductive post_outcome : Type :=
| PostRaises (detail : string)
| PostReturns (response : Response).

(** [response.raise_for_status()]: a 4xx or 5xx status raises. *)
Definition raise_for_status (response : Response) : result unit :=
  if (400 <=? status_code response) && (status_code response <? 600)
  then Raise (HTTPError (status_code response))
  else Ok ().

(** [response.json()] *)
Definition response_json (response : Response) : result json :=
  match body_json response with
  | Some body => Ok body
  | None => Raise JSONDecodeError
  end.

(** The object [JsonRpcClient]. *)
Record JsonRpcClient : Type := {
  rpc_urls : list string;
  _request_id : Z;
  _pool_tokens_cache : gmap Py.dict_key (string * string);
  _decimals_cache : gmap string Z
}.

(** [JsonRpcClient(rpc_urls)] *)
Definition JsonRpcClient_init (urls : list string) : result JsonRpcClient :=
  let urls := List.filter (fun url => negb (String.eqb url "")) urls in
  match urls with
  | [] => Raise (RpcError RpcUrlEmpty)
  | _ => Ok {| rpc_urls := urls; _request_id := 1;
               _pool_tokens_cache := ∅; _decimals_cache := ∅ |}
  end.

Section Network.

(** The servers: a state and the answer to one POST of a payload to a URL. *)
Variable World : Type.
Variable post : World -> string -> json -> post_outcome * World.

(** The network, with the requests sent so far (oldest first). *)
Record Network : Type := {
  world : World;
  sent : list (string * json)
}.

Definition state : Type := JsonRpcClient * Network.

(** A computation of the program: it reads and writes the client and the
    network, and returns or raises. *)
Definition prog (A : Type) : Type := state -> result A * state.

Definition pret {A} (a : A) : prog A := fun st => (Ok a, st).

Definition pbind {A B} (m : prog A) (k : A -> prog B) : prog B :=
  fun st =>
    match m st with
    | (inr a, st') => k a st'
    | (inl e, st') => (inl e, st')
    end.

#[global] Instance prog_ret : MRet prog := @pret.
#[global] Instance prog_bind : MBind prog := fun A B k m => pbind m k.

Definition raise {A} (e : exn) : prog A := fun st => (Raise e, st).

(** A pure step that may raise. *)
Definition lift {A} (r : result A) : prog A := fun st => (r, st).

(** [try: m  except Exception as exc: ...]: the outcome of [m] as a value. *)
Definition try_ {A} (m : prog A) : prog (result A) :=
  fun st => let (r, st') := m st in (Ok r, st').

Definition get_client : prog JsonRpcClient := fun st => (Ok (fst st), st).

Definition set_client (c : JsonRpcClient) : prog unit :=
  fun st => (Ok (), (c, snd st)).

(** [requests.post(rpc_url, json=payload, timeout=30)] *)
Definition requests_post (rpc_url : string) (payload : json) : prog Response :=
  fun '(client, net) =>
    let (outcome, w) := post (world net) rpc_url payload in
    let net' := {| world := w; sent := sent net ++ [(rpc_url, payload)] |} in
    match outcome with
    | PostRaises detail => (Raise (RequestException detail), (client, net'))
    | PostReturns response => (Ok response, (client, net'))
    end.

(** The body of the [try] of [JsonRpcClient.call], for one endpoint. *)
Definition call_attempt (rpc_url method : string) (params : list json)
  : prog json :=
  client ← get_client;
  let payload :=
    JObj [("jsonrpc", JStr "2.0"); ("id", JInt (_request_id client));
          ("method", JStr method); ("params", JArr params)] in
  set_client {| rpc_urls := rpc_urls client;
                _request_id := _request_id client + 1;
                _pool_tokens_cache := _pool_tokens_cache client;
                _decimals_cache := _decimals_cache client |};;
  response ← requests_post rpc_url payload;
  lift (raise_for_status response);;
  body ← lift (response_json response);
  has_error ← lift (Py.contains body "error");
  if has_error : bool then
    err ← lift (Py.getitem body "error");
    raise (RpcError (ErrorMember err))
  else lift (Py.getitem body "result").

(** The [for] loop of [JsonRpcClient.call] over the endpoints left. *)
Fixpoint call_loop (urls : list string) (method : string) (params : list json)
    (last_error : option exn) : prog json :=
  match urls with
  | [] => raise (RpcError (AllEndpointsFailed method last_error))
  | rpc_url :: urls' =>
      r ← try_ (call_attempt rpc_url method params);
      match r with
      | inr v => pret v
      | inl exc => call_loop urls' method params (Some exc)
      end
  end.

(** [client.call(method, params)] *)
Definition call (method : string) (params : list json) : prog json :=
  client ← get_client;
  call_loop (rpc_urls client) method params None.

(** [eth_call(client, to_addr, data)] *)
Definition eth_call (to_addr : json) (data : string) : prog json :=
  call "eth_call" [JObj [("to", to_addr); ("data", JStr data)]; JStr "latest"].

(** [get_token0_token1(client, pool)] *)
Definition get_token0_token1 (pool : json) : prog (string * string) :=
  cache_key ← lift (normalize_address_any pool);
  key ← lift (Py.hash_key cache_key);
  client ← get_client;
  match _pool_tokens_cache client !! key with
  | Some tokens => pret tokens
  | None =>
      token0_hex ← eth_call cache_key TOKEN0_SELECTOR;
      token1_hex ← eth_call cache_key TOKEN1_SELECTOR;
      tail0 ← lift (Py.last_chars_any 40 token0_hex);
      let token0 := normalize_address ("0x" +:+ tail0) in
      tail1 ← lift (Py.last_chars_any 40 token1_hex);
      let token1 := normalize_address ("0x" +:+ tail1) in
      client ← get_client;
      set_client {| rpc_urls := rpc_urls client;
                    _request_id := _request_id client;
                    _pool_tokens_cache :=
                      <[key := (token0, token1)]> (_pool_tokens_cache client);
                    _decimals_cache := _decimals_cache client |};;
      pret (token0, token1)
  end.

(** [get_decimals(client, token)] *)
Definition get_decimals (token : string) : prog Z :=
  let cache_key := normalize_address token in
  client ← get_client;
  match _decimals_cache client !! cache_key with
  | Some decimals => pret decimals
  | None =>
      decimals_hex ← eth_call (JStr cache_key) DECIMALS_SELECTOR;
      decimals ← lift (Py.int_base16_any decimals_hex);
      client ← get_client;
      set_client {| rpc_urls := rpc_urls client;
                    _request_id := _request_id client;
                    _pool_tokens_cache := _pool_tokens_cache client;
                    _decimals_cache :=
                      <[cache_key := decimals]> (_decimals_cache client) |};;
      pret decimals
  end.

(** [resolve_swap_tokens(client, swap)] *)
Definition resolve_swap_tokens (swap : SwapEvent)
  : prog (string * string * Z * Z) :=
  '(token0, token1) ← get_token0_token1 (pool swap);
  if (0 <? amount0 swap) && (amount1 swap <? 0)
  then pret (token0, token1, amount0 swap, - amount1 swap)
  else if (0 <? amount1 swap) && (amount0 swap <? 0)
  then pret (token1, token0, amount1 swap, - amount0 swap)
  else raise (RpcError (UnexpectedSwapAmounts (pool swap)
                          (amount0 swap) (amount1 swap))).

(** The part of [decode_uniswap_v3_swap] after the client is built.

    The [ThreadPoolExecutor] block is embedded under the schedule in which
    the tasks run one after the other in the order they are submitted.
    Both tasks of a pair are submitted before the first result is awaited,
    and leaving the [with] block joins them: the second task runs also when
    the first one raised. *)
Definition decode_with_client (tx_hash : string) : prog json :=
  receipt ← call "eth_getTransactionReceipt" [JStr tx_hash];
  match receipt with
  | JNull => raise (RpcError (ReceiptNotFound tx_hash))
  | _ =>
      status ← lift (Py.get receipt "status" JNull);
      if negb (Py.eq_str status "0x1")
      then raise (RpcError (TransactionFailed tx_hash))
      else
        tx ← call "eth_getTransactionByHash" [JStr tx_hash];
        let tx := if negb (Py.truthy tx) then JObj [] else tx in
        swaps ← lift (parse_swap_logs receipt);
        match swaps with
        | [] => raise (RpcError (NoSwapEvent tx_hash))
        | first_swap :: _ =>
            let last_swap := List.last swaps first_swap in
            first_future ← try_ (resolve_swap_tokens first_swap);
            last_future ← try_ (resolve_swap_tokens last_swap);
            '(token_in, _, amount_in, _) ← lift first_future;
            '(_, token_out, _, amount_out) ← lift last_future;
            decimals_in_future ← try_ (get_decimals token_in);
            decimals_out_future ← try_ (get_decimals token_out);
            decimals_in ← lift decimals_in_future;
            decimals_out ← lift decimals_out_future;
            tx_from ← lift (Py.get tx "from" JNull);
            sender_raw ←
              (if Py.truthy tx_from then pret tx_from
               else lift (Py.get receipt "from" JNull));
            if negb (Py.truthy sender_raw)
            then raise (RpcError SenderNotFound)
            else
              sender ← lift (normalize_address_any sender_raw);
              amountIn ← lift (format_amount amount_in decimals_in);
              amountOut ← lift (format_amount amount_out decimals_out);
              pret (JObj [("sender", sender);
                          ("recipient", JStr (recipient last_swap));
                          ("tokenIn", JStr token_in);
                          ("tokenOut", JStr token_out);
                          ("amountIn", JStr amountIn);
                          ("amountOut", JStr amountOut)])
        end
  end.

(** [decode_uniswap_v3_swap(tx_hash, rpc_urls)], started on network [net]. *)
Definition decode_uniswap_v3_swap (tx_hash : string) (urls : list string)
    (net : Network) : result json * Network :=
  match JsonRpcClient_init urls with
  | inl e => (inl e, net)
  | inr client =>
      let (r, st) := decode_with_client tx_hash (client, net) in (r, snd st)
  end.

End Network.

Arguments world {World} _.
Arguments sent {World} _.
Arguments call {World} post method params _.
Arguments call_loop {World} post urls method params last_error _.
Arguments call_attempt {World} post rpc_url method params _.
Arguments requests_post {World} post rpc_url payload _.
Arguments eth_call {World} post to_addr data _.
Arguments get_token0_token1 {World} post pool _.
Arguments get_decimals {World} post token _.
Arguments resolve_swap_tokens {World} post swap _.
Arguments decode_with_client {World} post tx_hash _.
Arguments decode_uniswap_v3_swap {World} post tx_hash urls net.

(* ------------------------------------------------------------------ *)
(** * Notions of the specification *)

(** Two characters that are equal, or the two cases of one ASCII letter. *)
Definition same_letter (c d : ascii) : bool :=
  Ascii.eqb c d
  || (Py.is_upper c && Ascii.eqb d (ascii_of_nat (nat_of_ascii c + 32)))
  || (Py.is_upper d && Ascii.eqb c (ascii_of_nat (nat_of_ascii d + 32))).

(** Two strings that differ only in letter case. *)
Fixpoint equal_ignoring_case (a b : string) : bool :=
  match a, b with
  | EmptyString, EmptyString => true
  | String c a', String d b' => same_letter c d && equal_ignoring_case a' b'
  | _, _ => false
  end.

(** Reading a decimal integer text back. *)
Definition int_of_str (s : string) : option Z :=
  option_map Z.of_int (NilZero.int_of_string s).

(** The characters of a string. *)
Definition chars_of (s : string) : list ascii := list_ascii_of_string s.

(** The decimals values [0, 1, ..., n - 1]. *)
Definition decimals_below (n : nat) : list Z := map Z.of_nat (seq 0 n).

(** [format_amount(0, d)] is the text "0". *)
Definition formats_zero_as_0 (d : Z) : bool :=
  match format_amount 0 d with
  | inr s => String.eqb s "0"
  | inl _ => false
  end.

(* ------------------------------------------------------------------ *)
(** * Scripted networks, for concrete runs *)

(** A network that answers the successive requests with the successive
    entries of a script, whatever the URL, and stops answering after. *)
Definition scripted_post (script : list post_outcome) (rpc_url : string)
    (payload : json) : post_outcome * list post_outcome :=
  match script with
  | [] => (PostRaises "connection refused", [])
  | outcome :: script' => (outcome, script')
  end.

Definition scripted (script : list post_outcome) : Network (list post_outcome) :=
  {| world := script; sent := [] |}.

(** An HTTP reply with the given status and a JSON-RPC success envelope. *)
Definition reply_with_status (status : Z) (value : json) : post_outcome :=
  PostReturns {| status_code := status;
                 body_json := Some (JObj [("jsonrpc", JStr "2.0");
                                          ("id", JInt 1);
                                          ("result", value)]) |}.

Definition reply (value : json) : post_outcome := reply_with_status 200 value.

(** A client with the given endpoints, as [JsonRpcClient(urls)] leaves it. *)
Definition fresh_client (urls : list string) : JsonRpcClient :=
  {| rpc_urls := urls; _request_id := 1;
     _pool_tokens_cache := ∅; _decimals_cache := ∅ |}.

Definition example_token0_word : string :=
  "0x000000000000000000000000A0b86991c6218b36c1d19D4a2e9Eb0cE3606eB48".
Definition example_token1_word : string :=
  "0x000000000000000000000000C02aaA39b223FE8D0A0e5C4F27eAD9083C756Cc2".
Definition example_token0 : string := "0xa0b86991c6218b36c1d19d4a2e9eb0ce3606eb48".
Definition example_token1 : string := "0xc02aaa39b223fe8d0a0e5c4f27ead9083c756cc2".
Definition example_pool : json := JStr "0x8ad599c3A0ff1De082011EFDDc58f1908eb6e6D8".

Definition example_swap (a0 a1 : Z) : SwapEvent :=
  {| pool := example_pool;
     sender := "0xe592427a0aece92de3edee1f18e0157c05861564";
     recipient := "0x1111111111111111111111111111111111111111";
     amount0 := a0; amount1 := a1 |}.

(** The text of the message of [RpcError(f"unexpected swap amounts in pool
    {pool}: amount0={amount0}, amount1={amount1}")] for a str [pool]. *)
Definition unexpected_swap_amounts_message (pool : string) (amount0 amount1 : Z)
  : string :=
  "unexpected swap amounts in pool " +:+ pool +:+ ": amount0="
    +:+ Py.str_int amount0 +:+ ", amount1=" +:+ Py.str_int amount1.

(** [str(RpcError(...))] where the program builds the message from strs and
    ints only. *)
Definition rpc_error_message (arg : rpc_arg) : option string :=
  match arg with
  | RpcUrlEmpty => Some "RPC_URL is empty"
  | ReceiptNotFound tx_hash => Some ("receipt not found: " +:+ tx_hash)
  | TransactionFailed tx_hash => Some ("transaction failed: " +:+ tx_hash)
  | NoSwapEvent tx_hash =>
      Some ("no Uniswap V3 Swap event found in tx " +:+ tx_hash)
  | UnexpectedSwapAmounts (JStr pool) amount0 amount1 =>
      Some (unexpected_swap_amounts_message pool amount0 amount1)
  | SenderNotFound =>
      Some "sender not found in RPC response; try a different mainnet RPC URL"
  | _ => None
  end.

(* ------------------------------------------------------------------ *)
(** * Notions of the specification: endpoint failover *)

(** The JSON-RPC envelope of the request with identifier [id]. *)
Definition request_payload (id : Z) (method : string) (params : list json)
  : json :=
  JObj [("jsonrpc", JStr "2.0"); ("id", JInt id);
        ("method", JStr method); ("params", JArr params)].

(** What one endpoint's answer amounts to.  It is a failure when the POST
    raised, when the status is 4xx or 5xx, when the body is not JSON or not
    an object, when the object has an "error" member, and when it has no
    "result" member; otherwise it is the "result" member. *)
Definition endpoint_answer (outcome : post_outcome) : result json :=
  match outcome with
  | PostRaises detail => Raise (RequestException detail)
  | PostReturns response =>
      if (400 <=? status_code response) && (status_code response <? 600)
      then Raise (HTTPError (status_code response))
      else
        match body_json response with
        | None => Raise JSONDecodeError
        | Some (JObj members) =>
            match Py.assoc "error" members with
            | Some err => Raise (RpcError (ErrorMember err))
            | None =>
                match Py.assoc "result" members with
                | Some value => Ok value
                | None => Raise KeyError
                end
            end
        | Some _ => Raise TypeError
        end
  end.

(** One request and the outcome of its POST. *)
Definition exchange : Type := (string * json) * post_outcome.

Definition failed (x : exchange) : Prop :=
  exists e, endpoint_answer (snd x) = Raise e.

(** The failure of an exchange, if it is one. *)
Definition failure_of (x : exchange) : option exn :=
  match endpoint_answer (snd x) with
  | inl e => Some e
  | inr _ => None
  end.

(** The failing endpoints as the specification words them: a network
    error, a status outside 2xx, or an envelope with an "error" member. *)
Definition failing_as_specified (outcome : post_outcome) : bool :=
  match outcome with
  | PostRaises _ => true
  | PostReturns response =>
      negb ((200 <=? status_code response) && (status_code response <? 300))
      || match body_json response with
         | Some (JObj members) =>
             match Py.assoc "error" members with Some _ => true | None => false end
         | _ => false
         end
  end.

(** The client after one more request identifier is used. *)
Definition next_request (client : JsonRpcClient) : JsonRpcClient :=
  {| rpc_urls := rpc_urls client;
     _request_id := _request_id client + 1;
     _pool_tokens_cache := _pool_tokens_cache client;
     _decimals_cache := _decimals_cache client |}.

Section Exchanges.

Context {World : Type} (post : World -> string -> json -> post_outcome * World).

(** The exchanges that contacting [urls] one after the other, in that
    order and each once, gives from the world [w], the identifiers counting
    up from [id]. *)
Fixpoint exchanges (urls : list string) (method : string) (params : list json)
    (id : Z) (w : World) : list exchange :=
  match urls with
  | [] => []
  | rpc_url :: urls' =>
      let payload := request_payload id method params in
      let (outcome, w') := post w rpc_url payload in
      ((rpc_url, payload), outcome) :: exchanges urls' method params (id + 1) w'
  end.

End Exchanges.

(* ------------------------------------------------------------------ *)
(** * Notions of the specification: qualifying logs *)

(** The first topic equals the signature hash, compared without regard to
    letter case, with or without the "0x" prefix. *)
Definition matches_swap_signature (topic0 : string) : bool :=
  String.eqb (Py.lower topic0) SWAP_EVENT_SIG
  || String.eqb (Py.lower topic0) ("0x" +:+ SWAP_EVENT_SIG).

(** A log entry qualifies: its first topic matches the signature hash and
    it has at least three topics. *)
Definition qualifies (log : json) : bool :=
  match log with
  | JObj members =>
      match Py.assoc "topics" members with
      | Some (JArr (JStr topic0 :: topics)) =>
          matches_swap_signature topic0 && (2 <=? List.length topics)%nat
      | _ => false
      end
  | _ => false
  end.









(** Example log entries. *)
Definition example_topic (address : string) : json :=
  JStr ("0x000000000000000000000000" +:+ address).

Definition example_data : string :=
  "0x"
  +:+ "00000000000000000000000000000000000000000000000000000000000f4240"
  +:+ "ffffffffffffffffffffffffffffffffffffffffffffffffe43e9298b1380000"
  +:+ "0000000000000000000000000000000000000001000000000000000000000000"
  +:+ "0000000000000000000000000000000000000000000000000000000000003039"
  +:+ "fffffffffffffffffffffffffffffffffffffffffffffffffffffffffffffffb".

Definition example_swap_topics : json :=
  JArr [JStr ("0xC42079F94A6350D7E6235F29174924F928CC2AC818EB64FED8004E115FBCCA67");
        example_topic "e592427a0aece92de3edee1f18e0157c05861564";
        example_topic "1111111111111111111111111111111111111111"].

Definition example_swap_log : json :=
  JObj [("address", example_pool);
        ("topics", example_swap_topics);
        ("data", JStr example_data)].

(** A Transfer event: another signature. *)
Definition example_transfer_log : json :=
  JObj [("address", JStr "0xa0b86991c6218b36c1d19d4a2e9eb0ce3606eb48");
        ("topics",
         JArr [JStr "0xddf252ad1be2c89b69c2b068fc378daa952ba7f163c4a11628f55a4df523b3ef";
               example_topic "e592427a0aece92de3edee1f18e0157c05861564";
               example_topic "1111111111111111111111111111111111111111"]);
        ("data", JStr "0x00000000000000000000000000000000000000000000000000000000000f4240")].




(** A log entry whose first topic is the signature hash with "0x" put in
    the middle. *)
Definition example_inner_0x_log : json :=
  JObj [("address", example_pool);
        ("topics",
         JArr [JStr ("c42079f94a6350d7e6235f29174924f9" +:+ "0x"
                     +:+ "28cc2ac818eb64fed8004e115fbcca67");
               example_topic "e592427a0aece92de3edee1f18e0157c05861564";
               example_topic "1111111111111111111111111111111111111111"]);
        ("data", JStr example_data)].

Definition example_receipt (logs : list json) : json :=
  JObj [("status", JStr "0x1");
        ("from", JStr "0xAb5801a7D398351b8bE11C439e05C5B3259aeC9B");
        ("logs", JArr logs)].

(** The event [example_swap_log] decodes to. *)
Definition example_event : SwapEvent :=
  {| pool := JStr "0x8ad599c3a0ff1de082011efddc58f1908eb6e6d8";
     sender := "0xe592427a0aece92de3edee1f18e0157c05861564";
     recipient := "0x1111111111111111111111111111111111111111";
     amount0 := 1000000; amount1 := -2000000000000000000 |}.

(* ------------------------------------------------------------------ *)
(** * Notions of the specification: the sender *)

(** The "from" value an RPC result provides: the member of the object,
    unless it is absent or empty ([null], ""). *)
Definition from_value (j : json) : option json :=
  match j with
  | JObj members =>
      match Py.assoc "from" members with
      | Some v => if Py.truthy v then Some v else None
      | None => None
      end
  | _ => None
  end.

(** The "from" of the transaction, else the one of the receipt. *)
Definition sender_source (tx receipt : json) : option json :=
  match from_value tx with
  | Some v => Some v
  | None => from_value receipt
  end.

(** The request is a call of [method] with [params]. *)
Definition is_request (method : string) (params : list json)
    (request : string * json) : Prop :=
  exists id, snd request = request_payload id method params.

(** Example runs of the decoder. *)
Definition example_tx_hash : string :=
  "0x5c504ed432cb51138bcf09aa5e8a410dd4a1e204ef84bfed1be16dfba1b22060".

Definition example_urls : list string := [""; "http://node.example"].

(** The answers to the receipt fetch, the transaction fetch, [token0()],
    [token1()] and the two [decimals()] calls. *)
Definition example_script (receipt tx : json) : list post_outcome :=
  [reply receipt; reply tx;
   reply (JStr example_token0_word); reply (JStr example_token1_word);
   reply (JStr "0x0000000000000000000000000000000000000000000000000000000000000006");
   reply (JStr "0x0000000000000000000000000000000000000000000000000000000000000012")].

Definition example_tx : json :=
  JObj [("hash", JStr example_tx_hash);
        ("from", JStr "0x28C6c06298d514Db089934071355E5743bf21d60")].

Definition example_result : json :=
  JObj [("sender", JStr "0x28c6c06298d514db089934071355e5743bf21d60");
        ("recipient", JStr "0x1111111111111111111111111111111111111111");
        ("tokenIn", JStr example_token0);
        ("tokenOut", JStr example_token1);
        ("amountIn", JStr "1");
        ("amountOut", JStr "2")].

(** A receipt without a "from" member. *)
Definition example_receipt_without_from (logs : list json) : json :=
  JObj [("status", JStr "0x1"); ("logs", JArr logs)].

(** A receipt of a reverted transaction. *)
Definition example_failed_receipt : list (string * json) :=
  [("status", JStr "0x0"); ("logs", JArr [])].

(* ------------------------------------------------------------------ *)
(** * Notions for the properties of the client *)

(** The requests that go to [urls], one each, with the identifiers
    counting up from [id]. *)
Fixpoint numbered_requests (method : string) (params : list json) (id : Z)
    (urls : list string) : list (string * json) :=
  match urls with
  | [] => []
  | rpc_url :: urls' =>
      (rpc_url, request_payload id method params)
        :: numbered_requests method params (id + 1) urls'
  end.

(** The client after [k] request identifiers are used: nothing else of it
    changes. *)
Definition after_requests (client : JsonRpcClient) (k : nat) : JsonRpcClient :=
  {| rpc_urls := rpc_urls client;
     _request_id := _request_id client + Z.of_nat k;
     _pool_tokens_cache := _pool_tokens_cache client;
     _decimals_cache := _decimals_cache client |}.

(** A URL that is not the empty string. *)
Definition nonempty_url (url : string) : bool := negb (String.eqb url "").

(** The form of an address the program produces: "0x", then at most 40
    characters, none of them an upper-case letter. *)
Definition address_form (a : string) : Prop :=
  Py.startswith a "0x" = true /\
  Py.lower a = a /\
  (String.length a <= 42)%nat.

(** The key under which [get_token0_token1] caches a pool. *)
Definition pool_key (pool : json) : result Py.dict_key :=
  cache_key ← normalize_address_any pool;
  Py.hash_key cache_key.

(** The client after [client._pool_tokens_cache[key] = tokens]. *)
Definition with_pool_tokens (client : JsonRpcClient) (key : Py.dict_key)
    (tokens : string * string) : JsonRpcClient :=
  {| rpc_urls := rpc_urls client;
     _request_id := _request_id client;
     _pool_tokens_cache := <[key := tokens]> (_pool_tokens_cache client);
     _decimals_cache := _decimals_cache client |}.

(** The client after [client._decimals_cache[key] = decimals]. *)
Definition with_decimals (client : JsonRpcClient) (key : string)
    (decimals : Z) : JsonRpcClient :=
  {| rpc_urls := rpc_urls client;
     _request_id := _request_id client;
     _pool_tokens_cache := _pool_tokens_cache client;
     _decimals_cache := <[key := decimals]> (_decimals_cache client) |}.


(** The parameters of [eth_call(client, to_addr, data)]. *)
Definition eth_call_params (to_addr : json) (data : string) : list json :=
  [JObj [("to", to_addr); ("data", JStr data)]; JStr "latest"].

(* ------------------------------------------------------------------ *)
(** * Notions for the properties of the parsed events *)




(* ------------------------------------------------------------------ *)
(** * Notions for the run of the decoder *)

(** A value an RPC endpoint gives for a transaction: an object, or an
    empty value such as [null]. *)
Definition object_or_empty (j : json) : Prop :=
  Py.truthy j = false \/ exists members, j = JObj members.

Section Run.

Context {World : Type} (post : World -> string -> json -> post_outcome * World).

(** What the steps of [decode_uniswap_v3_swap] before the sender is chosen
    (lines 153-179) produce, with the state each of them leaves. *)
Record lookups : Type := {
  run_client : JsonRpcClient;
  run_receipt : list (string * json);
  run_after_receipt : state World;
  run_tx : json;
  run_after_tx : state World;
  run_swaps : list SwapEvent;
  run_first_swap : SwapEvent;
  run_last_swap : SwapEvent;
  run_token_in : string;
  run_first_token_out : string;
  run_amount_in : Z;
  run_first_amount_out : Z;
  run_after_first : state World;
  run_last_token_in : string;
  run_token_out : string;
  run_last_amount_in : Z;
  run_amount_out : Z;
  run_after_last : state World;
  run_decimals_in : Z;
  run_after_decimals_in : state World;
  run_decimals_out : Z;
  run_after_decimals_out : state World
}.

(** The steps succeed one after the other from the network [net]: the
    client is built, the receipt is fetched and has the status "0x1", the
    transaction is fetched, the parser returns at least one event, the
    first and the last event resolve, and the decimals of the two tokens
    are looked up. *)
Definition decode_lookups (tx_hash : string) (urls : list string)
    (net : Network World) (r : lookups) : Prop :=
  JsonRpcClient_init urls = Ok (run_client r) /\
  call post "eth_getTransactionReceipt" [JStr tx_hash] (run_client r, net)
    = (Ok (JObj (run_receipt r)), run_after_receipt r) /\
  Py.assoc "status" (run_receipt r) = Some (JStr "0x1") /\
  call post "eth_getTransactionByHash" [JStr tx_hash] (run_after_receipt r)
    = (Ok (run_tx r), run_after_tx r) /\
  parse_swap_logs (JObj (run_receipt r)) = Ok (run_swaps r) /\
  head (run_swaps r) = Some (run_first_swap r) /\
  last (run_swaps r) = Some (run_last_swap r) /\
  resolve_swap_tokens post (run_first_swap r) (run_after_tx r)
    = (Ok (run_token_in r, run_first_token_out r,
           run_amount_in r, run_first_amount_out r), run_after_first r) /\
  resolve_swap_tokens post (run_last_swap r) (run_after_first r)
    = (Ok (run_last_token_in r, run_token_out r,
           run_last_amount_in r, run_amount_out r), run_after_last r) /\
  get_decimals post (run_token_in r) (run_after_last r)
    = (Ok (run_decimals_in r), run_after_decimals_in r) /\
  get_decimals post (run_token_out r) (run_after_decimals_in r)
    = (Ok (run_decimals_out r), run_after_decimals_out r).

(** The result the decoder assembles from the lookups and a sender
    (lines 187-194). *)
Definition assembled (r : lookups) (sender_v amountIn amountOut : string)
  : json :=
  JObj [("sender", JStr sender_v);
        ("recipient", JStr (recipient (run_last_swap r)));
        ("tokenIn", JStr (run_token_in r));
        ("tokenOut", JStr (run_token_out r));
        ("amountIn", JStr amountIn);
        ("amountOut", JStr amountOut)].

End Run.

Arguments lookups World : clear implicits.

(** The lookups of the example run, for a receipt with one Swap log entry
    as its logs. *)
Definition example_lookups (receipt : list (string * json)) (tx : json)
  : lookups (list post_outcome) :=
  let st0 := (fresh_client ["http://node.example"],
              scripted (example_script (JObj receipt) tx)) in
  let st1 := snd (call scripted_post "eth_getTransactionReceipt"
                    [JStr example_tx_hash] st0) in
  let st2 := snd (call scripted_post "eth_getTransactionByHash"
                    [JStr example_tx_hash] st1) in
  let st3 := snd (resolve_swap_tokens scripted_post example_event st2) in
  let st4 := snd (resolve_swap_tokens scripted_post example_event st3) in
  let st5 := snd (get_decimals scripted_post example_token0 st4) in
  let st6 := snd (get_decimals scripted_post example_token1 st5) in
  {| run_client := fresh_client ["http://node.example"];
     run_receipt := receipt;
     run_after_receipt := st1;
     run_tx := tx;
     run_after_tx := st2;
     run_swaps := [example_event];
     run_first_swap := example_event;
     run_last_swap := example_event;
     run_token_in := example_token0;
     run_first_token_out := example_token1;
     run_amount_in := 1000000;
     run_first_amount_out := 2000000000000000000;
     run_after_first := st3;
     run_last_token_in := example_token0;
     run_token_out := example_token1;
     run_last_amount_in := 1000000;
     run_amount_out := 2000000000000000000;
     run_after_last := st4;
     run_decimals_in := 6;
     run_after_decimals_in := st5;
     run_decimals_out := 18;
     run_after_decimals_out := st6 |}.

Definition example_receipt_members : list (string * json) :=
  [("status", JStr "0x1");
   ("from", JStr "0xAb5801a7D398351b8bE11C439e05C5B3259aeC9B");
   ("logs", JArr [example_swap_log])].

Definition example_receipt_members_without_from : list (string * json) :=
  [("status", JStr "0x1"); ("logs", JArr [example_swap_log])].
(* ------------------------------------------------------------------ *)
(** * Address normalization *)

Lemma lower_char_idem c : Py.lower_char (Py.lower_char c) = Py.lower_char c.
Proof. destruct c as [[] [] [] [] [] [] [] []]; reflexivity. Qed.

Lemma lower_idem s : Py.lower (Py.lower s) = Py.lower s.
Proof.
  induction s as [|c s IH]; simpl; [reflexivity|].
  now rewrite lower_char_idem, IH.
Qed.

Lemma lower_app a b : Py.lower (a +:+ b) = Py.lower a +:+ Py.lower b.
Proof. induction a as [|c a IH]; simpl; [reflexivity|]. now rewrite IH. Qed.

Lemma lower_eq_empty s : Py.lower s = "" -> s = "".
Proof. destruct s; simpl; [reflexivity|discriminate]. Qed.

Lemma same_letter_lower c d :
  same_letter c d = true -> Py.lower_char c = Py.lower_char d.
Proof.
  unfold same_letter. rewrite !orb_true_iff, !andb_true_iff.
  intros [[H|[Hu H]]|[Hu H]].
  - apply Ascii.eqb_eq in H. now subst.
  - apply Ascii.eqb_eq in H. subst d. revert Hu.
    destruct c as [[] [] [] [] [] [] [] []]; (discriminate || reflexivity).
  - apply Ascii.eqb_eq in H. subst c. revert Hu.
    destruct d as [[] [] [] [] [] [] [] []]; (discriminate || reflexivity).
Qed.

Lemma equal_ignoring_case_lower a b :
  equal_ignoring_case a b = true -> Py.lower a = Py.lower b.
Proof.
  revert b. induction a as [|c a IH]; intros [|d b]; simpl; try discriminate.
  - reflexivity.
  - rewrite andb_true_iff. intros [Hc Hs].
    now rewrite (same_letter_lower _ _ Hc), (IH _ Hs).
Qed.

Lemma equal_ignoring_case_empty a b :
  equal_ignoring_case a b = true -> (a = "" <-> b = "").
Proof. destruct a, b; simpl; try discriminate; intuition congruence. Qed.

Lemma startswith_0x_app s : Py.startswith ("0x" +:+ s) "0x" = true.
Proof. reflexivity. Qed.

Lemma normalize_address_nonempty a :
  a <> "" ->
  normalize_address a =
    if Py.startswith (Py.lower a) "0x" then Py.lower a else "0x" +:+ Py.lower a.
Proof.
  intros Ha. unfold normalize_address.
  destruct (String.eqb_spec a ""); [contradiction|reflexivity].
Qed.

Lemma normalize_address_shape a :
  a <> "" ->
  normalize_address a <> "" /\
  Py.startswith (normalize_address a) "0x" = true /\
  Py.lower (normalize_address a) = normalize_address a.
Proof.
  intros Ha. rewrite (normalize_address_nonempty a Ha).
  destruct (Py.startswith (Py.lower a) "0x") eqn:Hp.
  - split; [|split; [exact Hp|apply lower_idem]].
    intros H. apply lower_eq_empty in H. contradiction.
  - split; [discriminate|]. split; [apply startswith_0x_app|].
    rewrite lower_app, lower_idem. reflexivity.
Qed.

(** C8. [normalize_address] is idempotent, and two addresses that differ
    only in letter case normalize to the same string. *)
Theorem normalize_address_idempotent_case_insensitive :
  (forall a : string,
      normalize_address (normalize_address a) = normalize_address a) /\
  (forall a b : string,
      equal_ignoring_case a b = true ->
      normalize_address a = normalize_address b).
Proof.
  split.
  - intros a. destruct (String.eqb_spec a "") as [->|Ha]; [reflexivity|].
    destruct (normalize_address_shape a Ha) as (Hne & Hp & Hl).
    rewrite (normalize_address_nonempty _ Hne), Hl, Hp. reflexivity.
  - intros a b Hab. unfold normalize_address.
    pose proof (equal_ignoring_case_empty a b Hab) as He.
    destruct (String.eqb_spec a "") as [->|Ha], (String.eqb_spec b "") as [->|Hb];
      try reflexivity.
    + destruct Hb. now apply He.
    + destruct Ha. now apply He.
    + now rewrite (equal_ignoring_case_lower a b Hab).
Qed.

Lemma normalize_address_idempotent_case_insensitive_witness :
  normalize_address (normalize_address "0XAbCd") = normalize_address "0XAbCd" /\
  normalize_address "0XAbCd" = normalize_address "0xaBcD".
Proof.
  split.
  - apply (proj1 normalize_address_idempotent_case_insensitive).
  - apply (proj2 normalize_address_idempotent_case_insensitive). reflexivity.
Defined.

(** C9. The empty string is returned unchanged, without the "0x" prefix;
    every other input comes out lower-case and "0x"-prefixed. *)
Theorem normalize_address_empty_unprefixed :
  normalize_address "" = "" /\
  Py.startswith (normalize_address "") "0x" = false /\
  (forall a : string,
      a <> "" ->
      Py.startswith (normalize_address a) "0x" = true /\
      Py.lower (normalize_address a) = normalize_address a).
Proof.
  split; [reflexivity|]. split; [reflexivity|].
  intros a Ha. destruct (normalize_address_shape a Ha) as (_ & Hp & Hl). auto.
Qed.

Lemma normalize_address_empty_unprefixed_witness :
  Py.startswith (normalize_address "AbC") "0x" = true /\
  Py.lower (normalize_address "AbC") = normalize_address "AbC".
Proof.
  apply (proj2 (proj2 normalize_address_empty_unprefixed)). discriminate.
Defined.

(* ------------------------------------------------------------------ *)
(** * Amount formatting *)

Lemma string_of_uint_digits (d : Decimal.uint) (c : ascii) :
  In c (chars_of (NilEmpty.string_of_uint d)) ->
  (48 <= nat_of_ascii c <= 57)%nat.
Proof.
  induction d; simpl; intros H; try contradiction;
    (destruct H as [<-|H]; [vm_compute; lia|auto]).
Qed.

Lemma str_int_chars (x : Z) (c : ascii) :
  In c (chars_of (Py.str_int x)) ->
  c = "-"%char \/ (48 <= nat_of_ascii c <= 57)%nat.
Proof.
  unfold Py.str_int, NilZero.string_of_int, NilZero.string_of_uint.
  destruct (Z.to_int x) as [u|u]; simpl.
  - intros H. right. destruct u; try (apply (string_of_uint_digits _ _ H)).
    destruct H as [<-|[]]. vm_compute; lia.
  - intros [<-|H]; [now left|right].
    destruct u; try (apply (string_of_uint_digits _ _ H)).
    destruct H as [<-|[]]. vm_compute; lia.
Qed.

Lemma str_int_no_point (x : Z) : ~ In "."%char (chars_of (Py.str_int x)).
Proof.
  intros H. apply str_int_chars in H. destruct H as [H|H].
  - discriminate.
  - vm_compute in H. lia.
Qed.

Lemma int_of_str_str_int (x : Z) : int_of_str (Py.str_int x) = Some x.
Proof.
  unfold int_of_str, Py.str_int.
  rewrite NilZero.isi.
  - simpl. now rewrite DecimalZ.of_to.
  - destruct x; simpl; try discriminate.
    intros [= H]. now apply DecimalPos.Unsigned.to_uint_nonnil in H.
  - destruct x; simpl; try discriminate.
    intros [= H]. now apply DecimalPos.Unsigned.to_uint_nonnil in H.
Qed.

Lemma formats_zero_below_prec :
  forallb formats_zero_as_0 (decimals_below 78) = true.
Proof. vm_compute. reflexivity. Qed.

Lemma decimals_below_In (n : nat) (d : Z) :
  0 <= d < Z.of_nat n -> In d (decimals_below n).
Proof.
  intros Hd. unfold decimals_below. apply in_map_iff.
  exists (Z.to_nat d). split; [lia|]. apply in_seq. lia.
Qed.

(** C4, as the code has it.  With [decimals = 0] the integer is printed as
    it is: the text has no decimal point and reads back as the integer.
    A zero amount prints as "0" for every [decimals] from 0 to 77, the
    values whose scale [10 ** decimals] fits the 78 digits of precision. *)
Theorem format_amount_integer_and_zero :
  (forall x : Z,
      format_amount x 0 = Ok (Py.str_int x) /\
      ~ In "."%char (chars_of (Py.str_int x)) /\
      int_of_str (Py.str_int x) = Some x) /\
  (forall d : Z, 0 <= d <= 77 -> format_amount 0 d = Ok "0").
Proof.
  split.
  - intros x. split; [reflexivity|].
    split; [apply str_int_no_point|apply int_of_str_str_int].
  - intros d Hd.
    pose proof formats_zero_below_prec as Hall.
    rewrite forallb_forall in Hall.
    specialize (Hall d (decimals_below_In 78 d ltac:(lia))).
    unfold formats_zero_as_0 in Hall.
    destruct (format_amount 0 d) as [e|s]; [discriminate|].
    apply String.eqb_eq in Hall. now subst.
Qed.

Lemma format_amount_integer_and_zero_witness :
  format_amount 0 18 = Ok "0".
Proof.
  apply (proj2 format_amount_integer_and_zero). lia.
Defined.

(** C4 as stated fails: with [decimals = 78] the scale is rounded to 78
    digits and carries the exponent 1, so the zero quotient has the
    exponent -1 and prints as "0.0". *)
Lemma format_amount_zero_decimals_78 :
  format_amount 0 78 = Ok "0.0" /\ format_amount 0 78 <> Ok "0".
Proof. split; [vm_compute; reflexivity|vm_compute; discriminate]. Qed.

(* ------------------------------------------------------------------ *)
(** * Swap direction *)

Section Resolve.

Context {World : Type} (post : World -> string -> json -> post_outcome * World).

Lemma resolve_swap_tokens_unfold (swap : SwapEvent) (st : state World) :
  resolve_swap_tokens post swap st =
    match get_token0_token1 post (pool swap) st with
    | (inr (token0, token1), st') =>
        if (0 <? amount0 swap) && (amount1 swap <? 0)
        then (Ok (token0, token1, amount0 swap, - amount1 swap), st')
        else if (0 <? amount1 swap) && (amount0 swap <? 0)
        then (Ok (token1, token0, amount1 swap, - amount0 swap), st')
        else (Raise (RpcError (UnexpectedSwapAmounts (pool swap)
                                 (amount0 swap) (amount1 swap))), st')
    | (inl e, st') => (Raise e, st')
    end.
Proof.
  unfold resolve_swap_tokens, mbind, prog_bind, pbind.
  destruct (get_token0_token1 post (pool swap) st) as [[e|[token0 token1]] st'];
    [reflexivity|].
  destruct ((0 <? amount0 swap) && (amount1 swap <? 0)); [reflexivity|].
  destruct ((0 <? amount1 swap) && (amount0 swap <? 0)); reflexivity.
Qed.

(** C1. When the pool of the event resolves to [(token0, token1)]:
    [amount0 > 0] and [amount1 < 0] give
    [(token0, token1, amount0, -amount1)], and [amount1 > 0] and
    [amount0 < 0] give [(token1, token0, amount1, -amount0)]. *)
Theorem resolve_swap_tokens_direction
    (swap : SwapEvent) (st st' : state World) (token0 token1 : string) :
  get_token0_token1 post (pool swap) st = (Ok (token0, token1), st') ->
  (0 < amount0 swap -> amount1 swap < 0 ->
   resolve_swap_tokens post swap st =
     (Ok (token0, token1, amount0 swap, - amount1 swap), st')) /\
  (0 < amount1 swap -> amount0 swap < 0 ->
   resolve_swap_tokens post swap st =
     (Ok (token1, token0, amount1 swap, - amount0 swap), st')).
Proof.
  intros Hpair. rewrite resolve_swap_tokens_unfold, Hpair. unfold Ok. split.
  - intros H0 H1.
    apply Z.ltb_lt in H0, H1. now rewrite H0, H1.
  - intros H1 H0.
    assert ((0 <? amount0 swap) = false) as -> by (apply Z.ltb_ge; lia).
    apply Z.ltb_lt in H0, H1. now rewrite H0, H1.
Qed.

(** C2, as the code has it.  An event whose amounts are not one strictly
    positive and one strictly negative never gets a result: when the pool
    resolves, [resolve_swap_tokens] raises the error that carries the pool
    and both raw amounts; when the lookup of the pool raises, that
    exception is the one raised. *)
Theorem resolve_swap_tokens_malformed (swap : SwapEvent) (st : state World) :
  ~ (0 < amount0 swap /\ amount1 swap < 0) ->
  ~ (0 < amount1 swap /\ amount0 swap < 0) ->
  (forall v st', resolve_swap_tokens post swap st <> (Ok v, st')) /\
  (forall tokens st',
      get_token0_token1 post (pool swap) st = (Ok tokens, st') ->
      resolve_swap_tokens post swap st =
        (Raise (RpcError (UnexpectedSwapAmounts (pool swap)
                            (amount0 swap) (amount1 swap))), st')) /\
  (forall e st',
      get_token0_token1 post (pool swap) st = (Raise e, st') ->
      resolve_swap_tokens post swap st = (Raise e, st')) /\
  (forall p,
      pool swap = JStr p ->
      rpc_error_message (UnexpectedSwapAmounts (pool swap)
                           (amount0 swap) (amount1 swap)) =
        Some ("unexpected swap amounts in pool " +:+ p +:+ ": amount0="
                +:+ Py.str_int (amount0 swap) +:+ ", amount1="
                +:+ Py.str_int (amount1 swap))).
Proof.
  intros Hn0 Hn1.
  assert ((0 <? amount0 swap) && (amount1 swap <? 0) = false) as E0.
  { apply andb_false_iff.
    destruct (Z.ltb_spec 0 (amount0 swap)); [|now left].
    destruct (Z.ltb_spec (amount1 swap) 0); [|now right].
    destruct Hn0; lia. }
  assert ((0 <? amount1 swap) && (amount0 swap <? 0) = false) as E1.
  { apply andb_false_iff.
    destruct (Z.ltb_spec 0 (amount1 swap)); [|now left].
    destruct (Z.ltb_spec (amount0 swap) 0); [|now right].
    destruct Hn1; lia. }
  rewrite resolve_swap_tokens_unfold, E0, E1.
  repeat split.
  - intros v st'.
    destruct (get_token0_token1 post (pool swap) st) as [[e|[t0 t1]] st''];
      unfold Ok, Raise; congruence.
  - intros [t0 t1] st' ->. reflexivity.
  - intros e st' ->. reflexivity.
  - intros p ->. reflexivity.
Qed.

End Resolve.

Lemma example_pool_resolves :
  get_token0_token1 scripted_post example_pool
    (fresh_client ["http://node.example"],
     scripted [reply (JStr example_token0_word); reply (JStr example_token1_word)])
  = (Ok (example_token0, example_token1),
     ({| rpc_urls := ["http://node.example"]; _request_id := 3;
         _pool_tokens_cache :=
           {[ Py.KStr "0x8ad599c3a0ff1de082011efddc58f1908eb6e6d8" :=
                (example_token0, example_token1) ]};
         _decimals_cache := ∅ |},
      {| world := [];
         sent := [("http://node.example",
                   JObj [("jsonrpc", JStr "2.0"); ("id", JInt 1);
                         ("method", JStr "eth_call");
                         ("params",
                          JArr [JObj [("to", JStr "0x8ad599c3a0ff1de082011efddc58f1908eb6e6d8");
                                      ("data", JStr "0x0dfe1681")];
                                JStr "latest"])]);
                  ("http://node.example",
                   JObj [("jsonrpc", JStr "2.0"); ("id", JInt 2);
                         ("method", JStr "eth_call");
                         ("params",
                          JArr [JObj [("to", JStr "0x8ad599c3a0ff1de082011efddc58f1908eb6e6d8");
                                      ("data", JStr "0xd21220a7")];
                                JStr "latest"])])] |})).
Proof. vm_compute. reflexivity. Qed.

Lemma resolve_swap_tokens_direction_witness :
  fst (resolve_swap_tokens scripted_post
         (example_swap 1000000 (-2000000000000000000))
         (fresh_client ["http://node.example"],
          scripted [reply (JStr example_token0_word);
                    reply (JStr example_token1_word)]))
  = Ok (example_token0, example_token1, 1000000, 2000000000000000000).
Proof.
  rewrite (proj1 (resolve_swap_tokens_direction scripted_post
                    (example_swap 1000000 (-2000000000000000000))
                    _ _ _ _ example_pool_resolves)).
  - reflexivity.
  - simpl. lia.
  - simpl. lia.
Defined.

Lemma resolve_swap_tokens_malformed_witness :
  fst (resolve_swap_tokens scripted_post (example_swap 0 0)
         (fresh_client ["http://node.example"],
          scripted [reply (JStr example_token0_word);
                    reply (JStr example_token1_word)]))
  = Raise (RpcError (UnexpectedSwapAmounts example_pool 0 0)).
Proof.
  assert (~ (0 < amount0 (example_swap 0 0) /\ amount1 (example_swap 0 0) < 0))
    as H0 by (simpl; lia).
  assert (~ (0 < amount1 (example_swap 0 0) /\ amount0 (example_swap 0 0) < 0))
    as H1 by (simpl; lia).
  rewrite (proj1 (proj2 (resolve_swap_tokens_malformed scripted_post
                           (example_swap 0 0) _ H0 H1))
             _ _ example_pool_resolves).
  reflexivity.
Defined.

(** C2 as stated fails: when no endpoint answers, the lookup of the pool
    raises first, and the error is the one of the RPC client; it carries
    neither the pool nor the amounts. *)
Lemma resolve_swap_tokens_malformed_lookup_fails :
  fst (resolve_swap_tokens scripted_post (example_swap 0 0)
         (fresh_client ["http://node.example"], scripted []))
  = Raise (RpcError (AllEndpointsFailed "eth_call"
                       (Some (RequestException "connection refused")))) /\
  fst (resolve_swap_tokens scripted_post (example_swap 0 0)
         (fresh_client ["http://node.example"], scripted []))
  <> Raise (RpcError (UnexpectedSwapAmounts example_pool 0 0)).
Proof. split; [vm_compute; reflexivity|vm_compute; discriminate]. Qed.

(* ------------------------------------------------------------------ *)
(** * Endpoint failover *)

Section Call.

Context {World : Type} (post : World -> string -> json -> post_outcome * World).

Lemma read_response (response : Response) :
  (raise_for_status response;;
   body ← response_json response;
   has_error ← Py.contains body "error";
   if has_error : bool
   then err ← Py.getitem body "error"; Raise (RpcError (ErrorMember err))
   else Py.getitem body "result")
  = endpoint_answer (PostReturns response).
Proof.
  unfold endpoint_answer, raise_for_status, response_json.
  destruct ((400 <=? status_code response) && (status_code response <? 600));
    [reflexivity|].
  destruct (body_json response) as [[|b|z|s|xs|members]|]; try reflexivity.
  - simpl. destruct (Py.contains_substring _ _); reflexivity.
  - simpl. destruct (existsb _ xs); reflexivity.
  - simpl. destruct (Py.assoc "error" members); [reflexivity|].
    destruct (Py.assoc "result" members); reflexivity.
Qed.

(** One attempt: the request goes out, the identifier moves on, and the
    answer is read. *)
Lemma call_attempt_run (rpc_url method : string) (params : list json)
    (client : JsonRpcClient) (net : Network World) :
  call_attempt post rpc_url method params (client, net) =
    let payload := request_payload (_request_id client) method params in
    (endpoint_answer (fst (post (world net) rpc_url payload)),
     (next_request client,
      {| world := snd (post (world net) rpc_url payload);
         sent := sent net ++ [(rpc_url, payload)] |})).
Proof.
  unfold call_attempt, request_payload, mbind, prog_bind, pbind,
    get_client, set_client, requests_post, lift, next_request, Ok.
  cbv zeta. cbn [fst snd world sent _request_id].
  destruct (post (world net) rpc_url _) as [[detail|response] w'];
    cbn [fst snd]; [reflexivity|].
  rewrite <- read_response.
  unfold raise_for_status, response_json, mbind, result_bind, rbind.
  destruct ((400 <=? status_code response) && (status_code response <? 600));
    [reflexivity|]; simpl.
  destruct (body_json response) as [body|]; [|reflexivity]; simpl.
  destruct (Py.contains body "error") as [e|[]]; simpl; try reflexivity.
  unfold raise. destruct (Py.getitem body "error"); reflexivity.
Qed.

Lemma call_loop_cons (rpc_url : string) (urls : list string) (method : string)
    (params : list json) (last_error : option exn)
    (client : JsonRpcClient) (net : Network World) :
  call_loop post (rpc_url :: urls) method params last_error (client, net) =
    let payload := request_payload (_request_id client) method params in
    let st' := (next_request client,
                {| world := snd (post (world net) rpc_url payload);
                   sent := sent net ++ [(rpc_url, payload)] |}) in
    match endpoint_answer (fst (post (world net) rpc_url payload)) with
    | inr v => (Ok v, st')
    | inl exc => call_loop post urls method params (Some exc) st'
    end.
Proof.
  simpl. unfold mbind, prog_bind, pbind, try_.
  rewrite call_attempt_run. simpl.
  destruct (endpoint_answer _); reflexivity.
Qed.

Lemma exchanges_urls (urls : list string) (method : string)
    (params : list json) (id : Z) (w : World) :
  map (fun x : exchange => fst (fst x)) (exchanges post urls method params id w)
  = urls.
Proof.
  revert id w. induction urls as [|u urls IH]; intros id w; simpl;
    [reflexivity|].
  destruct (post w u _) as [o w']. simpl. now rewrite IH.
Qed.

Lemma exchanges_payloads (urls : list string) (method : string)
    (params : list json) (id : Z) (w : World) :
  Forall (fun x : exchange =>
            exists i, snd (fst x) = request_payload i method params)
         (exchanges post urls method params id w).
Proof.
  revert id w. induction urls as [|u urls IH]; intros id w; simpl;
    [constructor|].
  destruct (post w u _) as [o w']. constructor; [|apply IH].
  simpl. eauto.
Qed.

(** The loop stops at the first exchange that is not a failure. *)
Lemma call_loop_success (urls : list string) (method : string)
    (params : list json) :
  forall (last_error : option exn) (client : JsonRpcClient)
         (net : Network World) (before : list exchange) (x : exchange)
         (after : list exchange) (v : json),
    exchanges post urls method params (_request_id client) (world net)
      = before ++ x :: after ->
    Forall failed before ->
    endpoint_answer (snd x) = Ok v ->
    let r := call_loop post urls method params last_error (client, net) in
    fst r = Ok v /\
    sent (snd (snd r)) = sent net ++ map fst (before ++ [x]).
Proof.
  induction urls as [|u urls IH];
    intros last_error client net before x after v Hx Hfail Hok.
  - destruct before; discriminate.
  - rewrite call_loop_cons. simpl in Hx |- *.
    destruct (post (world net) u _) as [o w'] eqn:Hpost. simpl.
    destruct before as [|y before]; simpl in Hx.
    + injection Hx as <- _. simpl in Hok. rewrite Hok. simpl. auto.
    + injection Hx as <- Hrest. inversion Hfail as [|? ? [e He] Hfail']; subst.
      simpl in He. rewrite He.
      specialize (IH (Some e) (next_request client)
                    {| world := w'; sent := sent net ++ [(u, request_payload (_request_id client) method params)] |}
                    before x after v Hrest Hfail' Hok).
      simpl in IH. destruct IH as [IH1 IH2]. split; [exact IH1|].
      rewrite IH2. simpl. now rewrite <- app_assoc.
Qed.

(** When every exchange is a failure the loop goes through all of them and
    raises with the last failure. *)
Lemma call_loop_exhausted (urls : list string) (method : string)
    (params : list json) :
  forall (last_error : option exn) (client : JsonRpcClient)
         (net : Network World),
    let xs := exchanges post urls method params (_request_id client) (world net) in
    Forall failed xs ->
    let r := call_loop post urls method params last_error (client, net) in
    fst r = Raise (RpcError (AllEndpointsFailed method
                               (match last xs with
                                | Some x => failure_of x
                                | None => last_error
                                end))) /\
    sent (snd (snd r)) = sent net ++ map fst xs.
Proof.
  induction urls as [|u urls IH]; intros last_error client net xs Hfail r.
  - subst r xs. simpl. rewrite app_nil_r. auto.
  - subst r. rewrite call_loop_cons. subst xs. simpl in Hfail |- *.
    destruct (post (world net) u _) as [o w'] eqn:Hpost. simpl.
    inversion Hfail as [|? ? [e He] Hfail']; subst. simpl in He. rewrite He.
    specialize (IH (Some e) (next_request client)
                  {| world := w'; sent := sent net ++ [(u, request_payload (_request_id client) method params)] |}
                  Hfail').
    simpl in IH. destruct IH as [IH1 IH2]. split.
    + rewrite IH1. do 3 f_equal.
      destruct (exchanges post urls method params (_request_id client + 1) w')
        as [|y ys] eqn:Hys; simpl.
      * unfold failure_of. simpl. now rewrite He.
      * change (last (_ :: y :: ys)) with (last (y :: ys)).
        destruct (last (y :: ys)) eqn:Hl; [reflexivity|].
        apply last_None in Hl. discriminate.
    + rewrite IH2. now rewrite <- app_assoc.
Qed.

Lemma endpoint_failures (x : exchange) :
  (exists detail, snd x = PostRaises detail) \/
  (exists response,
      snd x = PostReturns response /\ 400 <= status_code response < 600) \/
  (exists response members err,
      snd x = PostReturns response /\
      body_json response = Some (JObj members) /\
      Py.assoc "error" members = Some err) ->
  failed x.
Proof.
  unfold failed.
  intros [[detail ->]|[(response & -> & Hs)|(response & members & err & -> & Hb & He)]];
    simpl.
  - eauto.
  - assert ((400 <=? status_code response) && (status_code response <? 600) = true)
      as -> by (apply andb_true_iff; split; [apply Z.leb_le|apply Z.ltb_lt]; lia).
    eauto.
  - destruct ((400 <=? status_code response) && (status_code response <? 600));
      [eauto|].
    rewrite Hb, He. eauto.
Qed.

(** C5, as the code has it.  The endpoints are contacted in the configured
    order, each at most once.  An endpoint fails when the POST raises, the
    status is 4xx or 5xx, the body is not a JSON object, or the object has
    an "error" member or no "result" member.  The call returns the result
    of the first endpoint that does not fail, and no request goes to a
    later endpoint; when all fail, it raises the error that carries the
    method and the failure of the last endpoint, after one request to each
    endpoint. *)
Theorem call_failover (method : string) (params : list json)
    (client : JsonRpcClient) (net : Network World) :
  let xs := exchanges post (rpc_urls client) method params
              (_request_id client) (world net) in
  let r := call post method params (client, net) in
  map (fun x : exchange => fst (fst x)) xs = rpc_urls client /\
  (forall before x after v,
      xs = before ++ x :: after ->
      Forall failed before ->
      endpoint_answer (snd x) = Ok v ->
      fst r = Ok v /\
      sent (snd (snd r)) = sent net ++ map fst (before ++ [x]) /\
      map fst (map fst (before ++ [x]))
        = firstn (S (length before)) (rpc_urls client)) /\
  (Forall failed xs ->
   fst r = Raise (RpcError (AllEndpointsFailed method
                              (x ← last xs; failure_of x))) /\
   sent (snd (snd r)) = sent net ++ map fst xs) /\
  (forall x,
      (exists detail, snd x = PostRaises detail) \/
      (exists response,
          snd x = PostReturns response /\ 400 <= status_code response < 600) \/
      (exists response members err,
          snd x = PostReturns response /\
          body_json response = Some (JObj members) /\
          Py.assoc "error" members = Some err) ->
      failed x).
Proof.
  intros xs r. split; [apply exchanges_urls|].
  split; [|split; [|apply endpoint_failures]].
  - intros before x after v Hxs Hfail Hok.
    destruct (call_loop_success (rpc_urls client) method params None
                client net before x after v Hxs Hfail Hok) as [H1 H2].
    split; [exact H1|]. split; [exact H2|].
    pose proof (exchanges_urls (rpc_urls client) method params
                  (_request_id client) (world net)) as Hu.
    fold xs in Hu. rewrite Hxs in Hu. rewrite <- Hu.
    rewrite map_map.
    replace (before ++ x :: after) with ((before ++ [x]) ++ after)
      by now rewrite <- app_assoc.
    rewrite (map_app _ (before ++ [x]) after).
    rewrite take_app_length'; [reflexivity|].
    rewrite length_map, length_app. simpl. lia.
  - intros Hfail.
    destruct (call_loop_exhausted (rpc_urls client) method params None
                client net Hfail) as [H1 H2].
    split; [|exact H2].
    unfold r, call, mbind, prog_bind, pbind, get_client. simpl.
    rewrite H1. fold xs. destruct (last xs); reflexivity.
Qed.

End Call.

Lemma call_failover_witness :
  let r := call scripted_post "eth_chainId" []
             (fresh_client ["http://a.example"; "http://b.example";
                            "http://c.example"; "http://d.example"],
              scripted [PostRaises "timed out";
                        reply_with_status 503 (JStr "0x1");
                        reply (JStr "0x1");
                        reply (JStr "0x5")]) in
  fst r = Ok (JStr "0x1") /\
  map fst (sent (snd (snd r)))
    = ["http://a.example"; "http://b.example"; "http://c.example"].
Proof.
  intros r.
  destruct (proj1 (proj2 (call_failover scripted_post "eth_chainId" []
                            (fresh_client ["http://a.example"; "http://b.example";
                                           "http://c.example"; "http://d.example"])
                            (scripted [PostRaises "timed out";
                                       reply_with_status 503 (JStr "0x1");
                                       reply (JStr "0x1");
                                       reply (JStr "0x5")])))
              [(("http://a.example", request_payload 1 "eth_chainId" []),
                PostRaises "timed out");
               (("http://b.example", request_payload 2 "eth_chainId" []),
                reply_with_status 503 (JStr "0x1"))]
              (("http://c.example", request_payload 3 "eth_chainId" []),
               reply (JStr "0x1"))
              [(("http://d.example", request_payload 4 "eth_chainId" []),
                reply (JStr "0x5"))]
              (JStr "0x1"))
    as (H1 & H2 & H3).
  - reflexivity.
  - repeat constructor; eexists; reflexivity.
  - reflexivity.
  - split; [exact H1|]. fold r in H2. rewrite H2. reflexivity.
Defined.

(** C5 as stated fails: an endpoint that answers with a status outside
    2xx is not always skipped.  [raise_for_status] raises for 4xx and 5xx
    only, so the result of an endpoint that answers 300 with a success
    envelope is returned, and the next endpoint is never contacted. *)
Lemma call_accepts_status_300 :
  let r := call scripted_post "eth_chainId" []
             (fresh_client ["http://a.example"; "http://b.example"],
              scripted [reply_with_status 300 (JStr "0x1");
                        reply (JStr "0x5")]) in
  failing_as_specified (reply_with_status 300 (JStr "0x1")) = true /\
  fst r = Ok (JStr "0x1") /\
  map fst (sent (snd (snd r))) = ["http://a.example"].
Proof. vm_compute. auto. Qed.

(* ------------------------------------------------------------------ *)
(** * Log parsing *)


Lemma bind_Raise_l {A B : Type} (r : result A) (k : A -> result B) (e : exn) :
  r = Raise e -> r ≫= k = Raise e.
Proof. intros ->. reflexivity. Qed.


(** ** Signature matching *)






Lemma SWAP_EVENT_SIG_without_0x :
  Py.contains_substring "0x" SWAP_EVENT_SIG = false.
Proof. vm_compute. reflexivity. Qed.




(** ** The loop body *)







(** ** The loop *)






(** The test of the code on the first topic removes every "0x", not the
    prefix only: an entry whose first topic is the hash with "0x" inside
    does not qualify, and is returned as an event all the same. *)
Lemma parse_swap_logs_inner_0x :
  qualifies example_inner_0x_log = false /\
  parse_swap_logs (example_receipt [example_inner_0x_log]) = Ok [example_event].
Proof. split; vm_compute; reflexivity. Qed.

(** ** Undecodable data *)



(** Text with a character that is neither a hexadecimal digit nor white
    space is not hexadecimal for [bytes.fromhex]. *)
Lemma fromhex_invalid_character (s : string) (c : ascii) :
  In c (chars_of s) -> Py.hex_digit c = None -> Py.is_space c = false ->
  Py.fromhex s = Raise ValueError.
Proof.
  intros Hin Hd Hs. revert Hin.
  assert (forall n s, (String.length s <= n)%nat ->
                      In c (chars_of s) -> Py.fromhex s = Raise ValueError)
    as Hgen.
  { induction n as [|n IH]; intros [|a t] Hlen Hin; try destruct Hin;
      try (simpl in Hlen; lia).
    - subst a. simpl. rewrite Hs, Hd. reflexivity.
    - simpl. destruct (Py.is_space a).
      + apply IH; [simpl in Hlen; lia|assumption].
      + destruct (Py.hex_digit a); [|reflexivity].
        destruct t as [|b t]; [reflexivity|].
        destruct H as [->|H].
        * rewrite Hd. reflexivity.
        * destruct (Py.hex_digit b); [|reflexivity].
          rewrite (IH t); [reflexivity|simpl in Hlen; lia|assumption]. }
  apply (Hgen (String.length s)). lia.
Qed.




(* ------------------------------------------------------------------ *)
(** * The orchestrator *)

Section Decode.

Context {World : Type} (post : World -> string -> json -> post_outcome * World).

Lemma prog_bind_Ok {A B : Type} (m : prog World A) (k : A -> prog World B)
    (st st' : state World) (b : B) :
  (m ≫= k) st = (Ok b, st') ->
  exists a st1, m st = (Ok a, st1) /\ k a st1 = (Ok b, st').
Proof.
  unfold mbind, prog_bind, pbind.
  destruct (m st) as [[e|a] st1]; [discriminate|]. eauto.
Qed.

Lemma prog_bind_run {A B : Type} (m : prog World A) (k : A -> prog World B)
    (st st1 : state World) (a : A) :
  m st = (Ok a, st1) -> (m ≫= k) st = k a st1.
Proof. unfold mbind, prog_bind, pbind. now intros ->. Qed.

Lemma lift_Ok {A : Type} (r : result A) (st st' : state World) (a : A) :
  lift World r st = (Ok a, st') -> r = Ok a /\ st' = st.
Proof. unfold lift. intros [= -> ->]. auto. Qed.


(** The requests of one call are requests for its method. *)
Lemma call_loop_requests (urls : list string) (method : string)
    (params : list json) :
  forall (last_error : option exn) (client : JsonRpcClient)
         (net : Network World),
  exists requests,
    sent (snd (snd (call_loop post urls method params last_error (client, net))))
      = sent net ++ requests /\
    Forall (is_request method params) requests.
Proof.
  induction urls as [|u urls IH]; intros last_error client net.
  - exists []. simpl. rewrite app_nil_r. split; [reflexivity|constructor].
  - rewrite call_loop_cons. cbv zeta.
    destruct (endpoint_answer _) as [e|v].
    + destruct (IH (Some e) (next_request client)
                  {| world := snd (post (world net) u
                                     (request_payload (_request_id client) method params));
                     sent := sent net ++ [(u, request_payload (_request_id client) method params)] |})
        as (requests & Hs & HF).
      exists ((u, request_payload (_request_id client) method params) :: requests).
      split.
      * rewrite Hs. simpl. now rewrite <- app_assoc.
      * constructor; [|exact HF]. now exists (_request_id client).
    + exists [(u, request_payload (_request_id client) method params)].
      split; [reflexivity|].
      constructor; [|constructor]. now exists (_request_id client).
Qed.

Lemma call_requests (method : string) (params : list json)
    (st : state World) :
  exists requests,
    sent (snd (snd (call post method params st))) = sent (snd st) ++ requests /\
    Forall (is_request method params) requests.
Proof.
  destruct st as [client net].
  unfold call, mbind, prog_bind, pbind, get_client. simpl.
  apply call_loop_requests.
Qed.

(** C6. When the receipt that was fetched has a status other than "0x1",
    the decode raises the transaction-failed error, and the requests it
    has sent are those of the receipt fetch: none for
    [eth_getTransactionByHash], none for [eth_call]. *)
Theorem decode_failed_status_stops (tx_hash : string) (urls : list string)
    (net : Network World) (client : JsonRpcClient)
    (receipt : list (string * json)) (st1 : state World) :
  JsonRpcClient_init urls = Ok client ->
  call post "eth_getTransactionReceipt" [JStr tx_hash] (client, net)
    = (Ok (JObj receipt), st1) ->
  Py.assoc "status" receipt <> Some (JStr "0x1") ->
  decode_uniswap_v3_swap post tx_hash urls net
    = (Raise (RpcError (TransactionFailed tx_hash)), snd st1) /\
  rpc_error_message (TransactionFailed tx_hash)
    = Some ("transaction failed: " +:+ tx_hash) /\
  exists requests,
    sent (snd st1) = sent net ++ requests /\
    Forall (is_request "eth_getTransactionReceipt" [JStr tx_hash]) requests.
Proof.
  intros Hinit Hcall Hstatus. split; [|split; [reflexivity|]].
  - unfold decode_uniswap_v3_swap. rewrite Hinit. cbn [Ok].
    unfold decode_with_client.
    rewrite (prog_bind_run _ _ _ _ _ Hcall).
    unfold mbind, prog_bind, pbind, lift, raise. cbn [Py.get Ok].
    assert (Py.eq_str (match Py.assoc "status" receipt with
                       | Some v => v
                       | None => JNull
                       end) "0x1" = false) as ->.
    { destruct (Py.assoc "status" receipt) as [[|b|z|s|xs|kvs]|]; try reflexivity.
      simpl. destruct (String.eqb_spec s "0x1") as [->|]; [|reflexivity].
      now destruct Hstatus. }
    reflexivity.
  - pose proof (call_requests "eth_getTransactionReceipt" [JStr tx_hash]
                  (client, net)) as Hreq.
    rewrite Hcall in Hreq. exact Hreq.
Qed.

(** ** The sender *)

Lemma normalize_address_any_truthy (v sender : json) :
  Py.truthy v = true ->
  normalize_address_any v = Ok sender ->
  exists raw, v = JStr raw /\ sender = JStr (normalize_address raw).
Proof.
  unfold normalize_address_any. intros Ht. rewrite Ht. cbn [negb].
  destruct v as [|b|z|raw|xs|kvs]; try discriminate.
  cbn. intros [= <-]. exists raw. split; [reflexivity|].
  unfold normalize_address.
  destruct (String.eqb_spec raw "") as [->|]; [discriminate Ht|reflexivity].
Qed.

Lemma raise_not_Ok {A : Type} (e : exn) (st st' : state World) (a : A) :
  raise World e st = (Ok a, st') -> False.
Proof. unfold raise. discriminate. Qed.

Lemma pret_Ok {A : Type} (a b : A) (st st' : state World) :
  pret World a st = (Ok b, st') -> a = b /\ st' = st.
Proof. unfold pret. intros [= -> ->]. auto. Qed.

Ltac prog_step H a st Ha :=
  apply prog_bind_Ok in H; destruct H as (a & st & Ha & H).

Ltac lift_step H a Ha :=
  let st := fresh "st" in
  let Hst := fresh "Hst" in
  prog_step H a st Ha; apply lift_Ok in Ha; destruct Ha as [Ha Hst];
  subst st.

Lemma decode_sender_Ok (tx_hash : string) (urls : list string)
    (net net' : Network World) (result : json) :
  decode_uniswap_v3_swap post tx_hash urls net = (Ok result, net') ->
  exists client receipt st1 tx st2 raw,
    JsonRpcClient_init urls = Ok client /\
    call post "eth_getTransactionReceipt" [JStr tx_hash] (client, net)
      = (Ok receipt, st1) /\
    call post "eth_getTransactionByHash" [JStr tx_hash] st1 = (Ok tx, st2) /\
    sender_source tx receipt = Some (JStr raw) /\
    Py.getitem result "sender" = Ok (JStr (normalize_address raw)).
Proof.
  unfold decode_uniswap_v3_swap.
  destruct (JsonRpcClient_init urls) as [e|client] eqn:Hinit; [discriminate|].
  destruct (decode_with_client post tx_hash (client, net)) as [r st] eqn:Hd.
  intros [= -> <-]. unfold decode_with_client in Hd.
  prog_step Hd receipt st1 Hreceipt.
  exists client, receipt, st1.
  destruct receipt as [|b|z|s|xs|members];
    try (exfalso; exact (raise_not_Ok _ _ _ _ Hd));
    try (exfalso; lift_step Hd status Hstatus; discriminate Hstatus).
  lift_step Hd status Hstatus.
  destruct (negb (Py.eq_str status "0x1"));
    [exfalso; exact (raise_not_Ok _ _ _ _ Hd)|].
  prog_step Hd tx st2 Htx.
  exists tx, st2.
  lift_step Hd swaps Hswaps.
  destruct swaps as [|first_swap swaps];
    [exfalso; exact (raise_not_Ok _ _ _ _ Hd)|].
  prog_step Hd first_future st3 Hfirst.
  prog_step Hd last_future st4 Hlast.
  lift_step Hd first_result Hfirst_result.
  destruct first_result as [[[token_in ?] amount_in] ?].
  lift_step Hd last_result Hlast_result.
  destruct last_result as [[[? token_out] ?] amount_out].
  prog_step Hd decimals_in_future st5 Hdin.
  prog_step Hd decimals_out_future st6 Hdout.
  lift_step Hd decimals_in Hdecimals_in.
  lift_step Hd decimals_out Hdecimals_out.
  lift_step Hd tx_from Htx_from.
  prog_step Hd sender_raw st7 Hraw.
  destruct (Py.truthy sender_raw) eqn:Htruthy; cbn [negb] in Hd;
    [|exfalso; exact (raise_not_Ok _ _ _ _ Hd)].
  lift_step Hd sender_v Hsender.
  lift_step Hd amountIn HamountIn.
  lift_step Hd amountOut HamountOut.
  apply pret_Ok in Hd. destruct Hd as [<- _].
  destruct (normalize_address_any_truthy _ _ Htruthy Hsender) as (raw & -> & ->).
  exists raw. repeat split; try assumption.
  unfold sender_source, from_value.
  destruct (Py.truthy tx_from) eqn:Hfrom.
  - apply pret_Ok in Hraw. destruct Hraw as [-> _].
    destruct (negb (Py.truthy tx)) eqn:Htx_truthy; [discriminate Htx_from|].
    destruct tx as [| ? | ? | ? | ? |tx_members]; try discriminate Htx_from.
    cbn in Htx_from. injection Htx_from as Htx_from.
    destruct (Py.assoc "from" tx_members) as [v|];
      [subst v; now rewrite Htruthy|discriminate Htx_from].
  - apply lift_Ok in Hraw. destruct Hraw as [Hraw _].
    cbn in Hraw. injection Hraw as Hraw.
    assert (match tx with
            | JObj tx_members =>
                match Py.assoc "from" tx_members with
                | Some v => if Py.truthy v then Some v else None
                | None => None
                end
            | _ => None
            end = None) as ->.
    { destruct tx as [| ? | ? | ? | ? |tx_members]; try reflexivity.
      destruct (negb (Py.truthy (JObj tx_members))) eqn:Htx_truthy.
      - destruct tx_members; [reflexivity|discriminate Htx_truthy].
      - cbn in Htx_from. injection Htx_from as Htx_from.
        destruct (Py.assoc "from" tx_members) as [v|]; [|reflexivity].
        subst v. now rewrite Hfrom. }
    destruct (Py.assoc "from" members) as [v|];
      [subst v; now rewrite Htruthy|discriminate Hraw].
Qed.

Lemma normalize_address_any_str (a : string) :
  normalize_address_any (JStr a) = Ok (JStr (normalize_address a)).
Proof.
  unfold normalize_address_any, normalize_address. cbn [Py.truthy].
  destruct (String.eqb_spec a "") as [->|]; reflexivity.
Qed.

Lemma last_default {A : Type} (d : A) (l : list A) :
  l <> [] -> last l = Some (List.last l d).
Proof.
  induction l as [|x [|y l] IH]; [congruence|reflexivity|].
  intros _. change (last (y :: l) = Some (List.last (y :: l) d)).
  apply IH. discriminate.
Qed.

Lemma try_run {A B : Type} (m : prog World A)
    (k : result A -> prog World B) (st st' : state World) (r : result A) :
  m st = (r, st') -> (try_ World m ≫= k) st = k r st'.
Proof. unfold mbind, prog_bind, pbind, try_. now intros ->. Qed.

Lemma lift_run {A B : Type} (r : result A) (a : A) (k : A -> prog World B)
    (st : state World) :
  r = Ok a -> (lift World r ≫= k) st = k a st.
Proof. intros ->. reflexivity. Qed.

Lemma from_value_empty (j : json) :
  Py.truthy j = false -> from_value j = None.
Proof.
  destruct j as [|b|z|s|xs|[|kv kvs]]; try reflexivity. discriminate.
Qed.

(** [(tx or {}).get("from") or receipt.get("from")], as the notion of the
    specification has it. *)
Lemma sender_raw_source (tx : json) (receipt : list (string * json)) :
  object_or_empty tx ->
  exists tx_from,
    Py.get (if negb (Py.truthy tx) then JObj [] else tx) "from" JNull
      = Ok tx_from /\
    match sender_source tx (JObj receipt) with
    | Some v =>
        Py.truthy v = true /\
        v = (if Py.truthy tx_from then tx_from
             else match Py.assoc "from" receipt with
                  | Some v' => v'
                  | None => JNull
                  end)
    | None =>
        Py.truthy (if Py.truthy tx_from then tx_from
                   else match Py.assoc "from" receipt with
                        | Some v' => v'
                        | None => JNull
                        end) = false
    end.
Proof.
  intros Hobj. unfold sender_source.
  assert (from_value (JObj receipt)
          = (if Py.truthy (match Py.assoc "from" receipt with
                           | Some v' => v'
                           | None => JNull
                           end)
             then Py.assoc "from" receipt else None)) as Hreceipt.
  { unfold from_value. destruct (Py.assoc "from" receipt) as [v|];
      [destruct (Py.truthy v)|]; reflexivity. }
  destruct (Py.truthy tx) eqn:Htruthy.
  - destruct Hobj as [Hempty|[members ->]]; [congruence|].
    cbn [negb Py.get]. eexists. split; [reflexivity|].
    unfold from_value at 1.
    destruct (Py.assoc "from" members) as [v|].
    + destruct (Py.truthy v) eqn:Hv; [auto|].
      rewrite Hreceipt. destruct (Py.assoc "from" receipt) as [v'|];
        [destruct (Py.truthy v') eqn:Hv'; auto|reflexivity].
    + cbn [Py.truthy]. rewrite Hreceipt.
      destruct (Py.assoc "from" receipt) as [v'|];
        [destruct (Py.truthy v') eqn:Hv'; auto|reflexivity].
  - cbn [negb Py.get Py.assoc]. exists JNull. split; [reflexivity|].
    rewrite (from_value_empty tx Htruthy). cbn [Py.truthy]. rewrite Hreceipt.
    destruct (Py.assoc "from" receipt) as [v'|];
      [destruct (Py.truthy v') eqn:Hv'; auto|reflexivity].
Qed.

(** Once the lookups have succeeded, the outcome of the decode is decided
    by the sender and the formatting of the two amounts, and the state is
    the one the last lookup left. *)
Lemma decode_after_lookups (tx_hash : string) (urls : list string)
    (net : Network World) (r : lookups World) :
  decode_lookups post tx_hash urls net r ->
  object_or_empty (run_tx r) ->
  decode_uniswap_v3_swap post tx_hash urls net
  = (match sender_source (run_tx r) (JObj (run_receipt r)) with
     | None => Raise (RpcError SenderNotFound)
     | Some raw =>
         sender_v ← normalize_address_any raw;
         amountIn ← format_amount (run_amount_in r) (run_decimals_in r);
         amountOut ← format_amount (run_amount_out r) (run_decimals_out r);
         Ok (JObj [("sender", sender_v);
                   ("recipient", JStr (recipient (run_last_swap r)));
                   ("tokenIn", JStr (run_token_in r));
                   ("tokenOut", JStr (run_token_out r));
                   ("amountIn", JStr amountIn);
                   ("amountOut", JStr amountOut)])
     end,
     snd (run_after_decimals_out r)).
Proof.
  destruct r as [client receipt st1 tx st2 swaps first_swap last_swap
                 token_in first_out amount_in first_amount_out st3
                 last_in token_out last_amount_in amount_out st4
                 decimals_in st5 decimals_out st6].
  unfold decode_lookups. cbn.
  intros (Hinit & Hreceipt & Hstatus & Htx & Hparse & Hfirst & Hlast
          & Hr1 & Hr2 & Hd1 & Hd2) Hobj.
  unfold decode_uniswap_v3_swap. rewrite Hinit. cbn [Ok].
  unfold decode_with_client.
  rewrite (prog_bind_run _ _ _ _ _ Hreceipt).
  assert (Py.get (JObj receipt) "status" JNull = Ok (JStr "0x1")) as Hget
    by (cbn [Py.get]; now rewrite Hstatus).
  rewrite (lift_run _ _ _ _ Hget).
  change (negb (Py.eq_str (JStr "0x1") "0x1")) with false. cbv iota.
  rewrite (prog_bind_run _ _ _ _ _ Htx). cbv zeta.
  rewrite (lift_run _ _ _ _ Hparse).
  destruct swaps as [|first_swap' swaps]; [discriminate Hfirst|].
  injection Hfirst as ->.
  rewrite (last_default first_swap (first_swap :: swaps)) in Hlast
    by discriminate.
  assert (last_swap = List.last (first_swap :: swaps) first_swap) as Hl
    by congruence.
  subst last_swap. clear Hlast.
  rewrite (try_run _ _ _ _ _ Hr1). rewrite (try_run _ _ _ _ _ Hr2).
  rewrite (lift_run _ _ _ _ eq_refl). rewrite (lift_run _ _ _ _ eq_refl).
  rewrite (try_run _ _ _ _ _ Hd1). rewrite (try_run _ _ _ _ _ Hd2).
  rewrite (lift_run _ _ _ _ eq_refl). rewrite (lift_run _ _ _ _ eq_refl).
  destruct (sender_raw_source tx receipt Hobj) as (tx_from & Hfrom & Hsource).
  rewrite (lift_run _ _ _ _ Hfrom).
  assert (forall k : json -> prog World json,
             ((if Py.truthy tx_from then pret World tx_from
               else lift World (Py.get (JObj receipt) "from" JNull)) ≫= k) st6
             = k (if Py.truthy tx_from then tx_from
                  else match Py.assoc "from" receipt with
                       | Some v' => v'
                       | None => JNull
                       end) st6) as Hraw.
  { intros k. destruct (Py.truthy tx_from); reflexivity. }
  rewrite Hraw. clear Hraw.
  destruct (sender_source tx (JObj receipt)) as [v|].
  - destruct Hsource as [Hv <-]. rewrite Hv. cbn [negb].
    unfold mbind, prog_bind, pbind, result_bind, rbind, lift, pret.
    destruct (normalize_address_any v) as [e|sender_v]; [reflexivity|].
    destruct (format_amount amount_in decimals_in) as [e|amountIn];
      [reflexivity|].
    destruct (format_amount amount_out decimals_out) as [e|amountOut];
      reflexivity.
  - rewrite Hsource. reflexivity.
Qed.



(** C7.  A result that is assembled has as its sender the normalized
    "from" of the transaction when the transaction provides one, else the
    normalized "from" of the receipt; when neither provides one, the decode
    raises and no result is assembled.  (A "from" is provided when the
    member is there and not empty.)  And the other way round, for a decode
    whose lookups have succeeded and whose amounts can be formatted: with a
    "from" of the transaction it returns the result with that one
    normalized as the sender; with none of the transaction and one of the
    receipt it returns the result with the receipt's normalized as the
    sender; with neither it raises "sender not found". *)
Theorem decode_sender (tx_hash : string) (urls : list string)
    (net : Network World) :
  (forall result net',
      decode_uniswap_v3_swap post tx_hash urls net = (Ok result, net') ->
      exists client receipt st1 tx st2 raw,
        JsonRpcClient_init urls = Ok client /\
        call post "eth_getTransactionReceipt" [JStr tx_hash] (client, net)
          = (Ok receipt, st1) /\
        call post "eth_getTransactionByHash" [JStr tx_hash] st1
          = (Ok tx, st2) /\
        sender_source tx receipt = Some (JStr raw) /\
        Py.getitem result "sender" = Ok (JStr (normalize_address raw))) /\
  (forall client receipt st1 tx st2,
      JsonRpcClient_init urls = Ok client ->
      call post "eth_getTransactionReceipt" [JStr tx_hash] (client, net)
        = (Ok receipt, st1) ->
      call post "eth_getTransactionByHash" [JStr tx_hash] st1 = (Ok tx, st2) ->
      sender_source tx receipt = None ->
      exists e net',
        decode_uniswap_v3_swap post tx_hash urls net = (Raise e, net')) /\
  (forall r : lookups World,
      decode_lookups post tx_hash urls net r ->
      object_or_empty (run_tx r) ->
      (forall raw amountIn amountOut,
          from_value (run_tx r) = Some (JStr raw) \/
          (from_value (run_tx r) = None /\
           from_value (JObj (run_receipt r)) = Some (JStr raw)) ->
          format_amount (run_amount_in r) (run_decimals_in r) = Ok amountIn ->
          format_amount (run_amount_out r) (run_decimals_out r)
            = Ok amountOut ->
          decode_uniswap_v3_swap post tx_hash urls net
          = (Ok (assembled r (normalize_address raw) amountIn amountOut),
             snd (run_after_decimals_out r))) /\
      (from_value (run_tx r) = None ->
       from_value (JObj (run_receipt r)) = None ->
       decode_uniswap_v3_swap post tx_hash urls net
       = (Raise (RpcError SenderNotFound), snd (run_after_decimals_out r)))).
Proof.
  split; [|split].
  - intros result net'. apply decode_sender_Ok.
  - intros client receipt st1 tx st2 Hinit Hreceipt Htx Hnone.
    destruct (decode_uniswap_v3_swap post tx_hash urls net) as [[e|result] net']
      eqn:Hd; [eauto|].
    exfalso.
    destruct (decode_sender_Ok tx_hash urls net net' result Hd)
      as (client' & receipt' & st1' & tx' & st2' & raw & Hinit' & Hreceipt'
          & Htx' & Hsource & _).
    rewrite Hinit in Hinit'. injection Hinit' as <-.
    rewrite Hreceipt in Hreceipt'. injection Hreceipt' as <- <-.
    rewrite Htx in Htx'. injection Htx' as <- <-.
    rewrite Hnone in Hsource. discriminate Hsource.
  - intros r Hrun Hobj.
    rewrite (decode_after_lookups tx_hash urls net r Hrun Hobj).
    unfold sender_source. split.
    + intros raw amountIn amountOut Hfrom HamountIn HamountOut.
      assert (match from_value (run_tx r) with
              | Some v => Some v
              | None => from_value (JObj (run_receipt r))
              end = Some (JStr raw)) as ->.
      { destruct Hfrom as [->|[-> ->]]; reflexivity. }
      rewrite normalize_address_any_str, HamountIn, HamountOut. reflexivity.
    + intros -> ->. reflexivity.
Qed.

End Decode.

Lemma decode_failed_status_stops_witness :
  decode_uniswap_v3_swap scripted_post example_tx_hash example_urls
    (scripted [reply (JObj example_failed_receipt)])
  = (Raise (RpcError (TransactionFailed example_tx_hash)),
     {| world := [];
        sent := [("http://node.example",
                  request_payload 1 "eth_getTransactionReceipt"
                    [JStr example_tx_hash])] |}).
Proof.
  apply (proj1 (decode_failed_status_stops scripted_post example_tx_hash
                  example_urls (scripted [reply (JObj example_failed_receipt)])
                  (fresh_client ["http://node.example"])
                  example_failed_receipt
                  (next_request (fresh_client ["http://node.example"]),
                   {| world := [];
                      sent := [("http://node.example",
                                request_payload 1 "eth_getTransactionReceipt"
                                  [JStr example_tx_hash])] |})
                  eq_refl eq_refl ltac:(discriminate))).
Defined.

Lemma decode_sender_witness :
  decode_uniswap_v3_swap scripted_post example_tx_hash example_urls
    (scripted (example_script (JObj example_receipt_members) JNull))
  = (Ok (JObj [("sender", JStr "0xab5801a7d398351b8be11c439e05c5b3259aec9b");
               ("recipient", JStr "0x1111111111111111111111111111111111111111");
               ("tokenIn", JStr example_token0);
               ("tokenOut", JStr example_token1);
               ("amountIn", JStr "1");
               ("amountOut", JStr "2")]),
     snd (run_after_decimals_out
            (example_lookups example_receipt_members JNull))) /\
  decode_uniswap_v3_swap scripted_post example_tx_hash example_urls
    (scripted (example_script (JObj example_receipt_members) example_tx))
  = (Ok example_result,
     snd (run_after_decimals_out
            (example_lookups example_receipt_members example_tx))) /\
  decode_uniswap_v3_swap scripted_post example_tx_hash example_urls
    (scripted (example_script (JObj example_receipt_members_without_from)
                 JNull))
  = (Raise (RpcError SenderNotFound),
     snd (run_after_decimals_out
            (example_lookups example_receipt_members_without_from JNull))).
Proof.
  split; [|split].
  - apply (proj1 (proj2 (proj2 (decode_sender scripted_post example_tx_hash
                                  example_urls
                                  (scripted (example_script
                                               (JObj example_receipt_members)
                                               JNull))))
                    (example_lookups example_receipt_members JNull)
                    ltac:(vm_compute; repeat split; reflexivity)
                    ltac:(left; reflexivity))
             "0xAb5801a7D398351b8bE11C439e05C5B3259aeC9B" "1" "2").
    + right. split; reflexivity.
    + vm_compute. reflexivity.
    + vm_compute. reflexivity.
  - apply (proj1 (proj2 (proj2 (decode_sender scripted_post example_tx_hash
                                  example_urls
                                  (scripted (example_script
                                               (JObj example_receipt_members)
                                               example_tx))))
                    (example_lookups example_receipt_members example_tx)
                    ltac:(vm_compute; repeat split; reflexivity)
                    ltac:(right; eexists; reflexivity))
             "0x28C6c06298d514Db089934071355E5743bf21d60" "1" "2").
    + left. reflexivity.
    + vm_compute. reflexivity.
    + vm_compute. reflexivity.
  - apply (proj2 (proj2 (proj2 (decode_sender scripted_post example_tx_hash
                                  example_urls
                                  (scripted (example_script
                                               (JObj example_receipt_members_without_from)
                                               JNull))))
                    (example_lookups example_receipt_members_without_from
                       JNull)
                    ltac:(vm_compute; repeat split; reflexivity)
                    ltac:(left; reflexivity))); reflexivity.
Defined.

(** The run of the specification's scenario: one qualifying log with
    [amount0 = 1000000] and [amount1 = -2000000000000000000], decimals 6
    and 18. *)
Lemma decode_example_run :
  fst (decode_uniswap_v3_swap scripted_post example_tx_hash example_urls
         (scripted (example_script (example_receipt [example_swap_log])
                      example_tx)))
  = Ok example_result.
Proof. vm_compute. reflexivity. Qed.

(* ------------------------------------------------------------------ *)
(** * The client: construction and request identifiers *)

(** X1. [JsonRpcClient(urls)] raises "RPC_URL is empty" exactly when every
    URL is the empty string; otherwise the client keeps the non-empty URLs
    in their order, starts at identifier 1 and has empty caches. *)
Theorem JsonRpcClient_init_nonempty_urls (urls : list string) :
  (JsonRpcClient_init urls = Raise (RpcError RpcUrlEmpty)
   <-> Forall (fun url => url = "") urls) /\
  (forall client,
      JsonRpcClient_init urls = Ok client ->
      rpc_urls client = List.filter nonempty_url urls /\
      rpc_urls client <> [] /\
      ~ In "" (rpc_urls client) /\
      _request_id client = 1 /\
      _pool_tokens_cache client = ∅ /\
      _decimals_cache client = ∅) /\
  (forall e, JsonRpcClient_init urls = Raise e -> e = RpcError RpcUrlEmpty).
Proof.
  unfold JsonRpcClient_init.
  change (fun url : string => negb (String.eqb url "")) with nonempty_url.
  assert (List.filter nonempty_url urls = [] <-> Forall (fun url => url = "") urls)
    as Hempty.
  { induction urls as [|u urls IH]; simpl.
    - split; [constructor|reflexivity].
    - unfold nonempty_url at 1. destruct (String.eqb_spec u "") as [->|Hu]; simpl.
      + rewrite IH. split; [now constructor|now inversion 1].
      + split; [discriminate|]. inversion 1; contradiction. }
  destruct (List.filter nonempty_url urls) as [|u us] eqn:Hf.
  - split; [|split].
    + split; [intros _; now apply Hempty|reflexivity].
    + discriminate.
    + now intros e [= <-].
  - split; [|split].
    + split; [discriminate|]. intros H. apply Hempty in H. discriminate.
    + intros client [= <-]. cbn [rpc_urls _request_id _pool_tokens_cache
                                   _decimals_cache].
      split; [reflexivity|]. split; [discriminate|].
      split; [|repeat split].
      rewrite <- Hf. intros Hin. apply filter_In in Hin.
      destruct Hin as [_ Hin]. discriminate Hin.
    + discriminate.
Qed.

Section ClientState.

Context {World : Type} (post : World -> string -> json -> post_outcome * World).

Lemma after_requests_S (client : JsonRpcClient) (k : nat) :
  after_requests (next_request client) k = after_requests client (S k).
Proof.
  unfold after_requests, next_request. simpl. f_equal. lia.
Qed.

Lemma after_requests_0 (client : JsonRpcClient) :
  after_requests client 0 = client.
Proof.
  unfold after_requests. destruct client. simpl. f_equal. lia.
Qed.

Lemma call_loop_state (urls : list string) (method : string)
    (params : list json) :
  forall (last_error : option exn) (client : JsonRpcClient)
         (net : Network World),
    let r := call_loop post urls method params last_error (client, net) in
    exists k : nat,
      (k <= List.length urls)%nat /\
      fst (snd r) = after_requests client k /\
      sent (snd (snd r))
        = sent net ++ numbered_requests method params (_request_id client)
                        (firstn k urls) /\
      match fst r with
      | inr _ => (1 <= k)%nat
      | inl _ => k = List.length urls
      end.
Proof.
  induction urls as [|u urls IH]; intros last_error client net r.
  - exists 0%nat. subst r. simpl. rewrite app_nil_r, after_requests_0. auto.
  - subst r. rewrite call_loop_cons. cbv zeta.
    destruct (endpoint_answer _) as [e|v].
    + destruct (IH (Some e) (next_request client)
                  {| world := snd (post (world net) u
                                     (request_payload (_request_id client) method params));
                     sent := sent net ++ [(u, request_payload (_request_id client) method params)] |})
        as (k & Hk & Hc & Hs & Hr).
      exists (S k). split; [simpl; lia|].
      split; [rewrite Hc; apply after_requests_S|].
      split.
      * rewrite Hs. simpl. now rewrite <- app_assoc.
      * destruct (fst (call_loop _ _ _ _ _ _)); [simpl; lia|lia].
    + exists 1%nat. simpl. split; [lia|].
      split; [now rewrite <- after_requests_S, after_requests_0|].
      split; [reflexivity|lia].
Qed.

(** X2. One call uses consecutive request identifiers: it sends one
    request to each of the first [k] endpoints, numbered from the client's
    identifier on, and leaves the identifier [k] higher; the URLs and both
    caches of the client are untouched.  A call that returns has sent at
    least one request; a call that raises has sent one to every endpoint. *)
Theorem call_numbers_requests (method : string) (params : list json)
    (client : JsonRpcClient) (net : Network World) :
  let r := call post method params (client, net) in
  exists k : nat,
    (k <= List.length (rpc_urls client))%nat /\
    fst (snd r) = after_requests client k /\
    sent (snd (snd r))
      = sent net ++ numbered_requests method params (_request_id client)
                      (firstn k (rpc_urls client)) /\
    match fst r with
    | inr _ => (1 <= k)%nat
    | inl _ => k = List.length (rpc_urls client)
    end.
Proof.
  unfold call, mbind, prog_bind, pbind, get_client. simpl.
  apply call_loop_state.
Qed.

Lemma call_loop_raises_inv (urls : list string) (method : string)
    (params : list json) :
  forall (last_error : option exn) (client : JsonRpcClient)
         (net : Network World) (e : exn) (st : state World),
    call_loop post urls method params last_error (client, net) = (Raise e, st) ->
    Forall failed (exchanges post urls method params (_request_id client)
                     (world net)).
Proof.
  induction urls as [|u urls IH]; intros last_error client net e st Hcall.
  - constructor.
  - rewrite call_loop_cons in Hcall. cbv zeta in Hcall. simpl.
    destruct (post (world net) u _) as [o w'] eqn:Hpost. simpl in Hcall.
    destruct (endpoint_answer o) as [eo|v] eqn:Ho; [|discriminate Hcall].
    constructor.
    + now exists eo.
    + exact (IH _ _ _ _ _ Hcall).
Qed.

Lemma numbered_requests_length (method : string) (params : list json)
    (id : Z) (urls : list string) :
  List.length (numbered_requests method params id urls) = List.length urls.
Proof.
  revert id. induction urls as [|u urls IH]; intros id; simpl;
    [reflexivity|now rewrite IH].
Qed.

(** X3. For a client with at least one endpoint, as the constructor
    guarantees, a call that raises raises the aggregated error with the
    failure of the last endpoint in it (never an empty one), and only after
    a request to every endpoint. *)
Theorem call_failure_has_last_error (method : string) (params : list json)
    (client : JsonRpcClient) (net : Network World) (e : exn)
    (st : state World) :
  rpc_urls client <> [] ->
  call post method params (client, net) = (Raise e, st) ->
  exists last_failure x,
    e = RpcError (AllEndpointsFailed method (Some last_failure)) /\
    last (exchanges post (rpc_urls client) method params
            (_request_id client) (world net)) = Some x /\
    endpoint_answer (snd x) = Raise last_failure /\
    List.length (sent (snd st))
      = (List.length (sent net) + List.length (rpc_urls client))%nat.
Proof.
  intros Hne Hcall.
  assert (call_loop post (rpc_urls client) method params None (client, net)
          = (Raise e, st)) as Hloop.
  { unfold call, mbind, prog_bind, pbind, get_client in Hcall. simpl in Hcall.
    exact Hcall. }
  pose proof (call_loop_raises_inv _ _ _ _ _ _ _ _ Hloop) as Hfailed.
  destruct (call_loop_exhausted post (rpc_urls client) method params None
              client net Hfailed) as [He Hsent].
  rewrite Hloop in He, Hsent. simpl in He, Hsent.
  pose proof (exchanges_urls post (rpc_urls client) method params
                (_request_id client) (world net)) as Hurls.
  destruct (last (exchanges post (rpc_urls client) method params
                    (_request_id client) (world net))) as [x|] eqn:Hlast.
  - assert (failed x) as [ex Hx].
    { rewrite List.Forall_forall in Hfailed. apply Hfailed.
      apply last_Some in Hlast. destruct Hlast as [l' Hl']. rewrite Hl'.
      apply in_or_app. right. now left. }
    exists ex, x. split; [|split; [reflexivity|split; [exact Hx|]]].
    + injection He as ->. unfold failure_of. now rewrite Hx.
    + apply (f_equal (@List.length _)) in Hurls.
      rewrite length_map in Hurls.
      rewrite Hsent, length_app, length_map. f_equal. exact Hurls.
  - apply last_None in Hlast. rewrite Hlast in Hurls. simpl in Hurls.
    now destruct Hne.
Qed.

End ClientState.

Lemma JsonRpcClient_init_nonempty_urls_witness :
  rpc_urls (fresh_client ["http://node.example"])
    = List.filter nonempty_url example_urls /\
  rpc_urls (fresh_client ["http://node.example"]) <> [] /\
  ~ In "" (rpc_urls (fresh_client ["http://node.example"])) /\
  _request_id (fresh_client ["http://node.example"]) = 1 /\
  _pool_tokens_cache (fresh_client ["http://node.example"]) = ∅ /\
  _decimals_cache (fresh_client ["http://node.example"]) = ∅.
Proof.
  apply (proj1 (proj2 (JsonRpcClient_init_nonempty_urls example_urls))).
  reflexivity.
Defined.

Lemma call_failure_has_last_error_witness :
  exists last_failure x,
    RpcError (AllEndpointsFailed "eth_chainId" (Some (HTTPError 502)))
      = RpcError (AllEndpointsFailed "eth_chainId" (Some last_failure)) /\
    last (exchanges scripted_post ["http://a.example"; "http://b.example"]
            "eth_chainId" [] 1
            [PostRaises "timed out"; reply_with_status 502 JNull]) = Some x /\
    endpoint_answer (snd x) = Raise last_failure /\
    List.length
      (sent (snd (snd (call scripted_post "eth_chainId" []
                         (fresh_client ["http://a.example"; "http://b.example"],
                          scripted [PostRaises "timed out";
                                    reply_with_status 502 JNull])))))
      = (0 + 2)%nat.
Proof.
  apply (call_failure_has_last_error scripted_post "eth_chainId" []
           (fresh_client ["http://a.example"; "http://b.example"])
           (scripted [PostRaises "timed out"; reply_with_status 502 JNull])
           (RpcError (AllEndpointsFailed "eth_chainId" (Some (HTTPError 502))))
           (snd (call scripted_post "eth_chainId" []
                   (fresh_client ["http://a.example"; "http://b.example"],
                    scripted [PostRaises "timed out";
                              reply_with_status 502 JNull])))).
  - discriminate.
  - vm_compute. reflexivity.
Defined.

(* ------------------------------------------------------------------ *)
(** * Addresses from topics and call results *)

Lemma drop_chars_length (n : nat) (s : string) :
  String.length (Py.drop_chars n s) = (String.length s - n)%nat.
Proof.
  revert s. induction n as [|n IH]; intros [|c s]; simpl; auto.
Qed.

Lemma last_chars_length (n : nat) (s : string) :
  String.length (Py.last_chars n s) = Nat.min n (String.length s).
Proof. unfold Py.last_chars. rewrite drop_chars_length. lia. Qed.

Lemma lower_length (s : string) : String.length (Py.lower s) = String.length s.
Proof. induction s as [|c s IH]; simpl; [reflexivity|now rewrite IH]. Qed.

Lemma append_length (a b : string) :
  String.length (a +:+ b) = (String.length a + String.length b)%nat.
Proof. induction a as [|c a IH]; simpl; [reflexivity|now rewrite IH]. Qed.

Lemma normalize_address_same_case (a b : string) :
  equal_ignoring_case a b = true -> normalize_address a = normalize_address b.
Proof.
  intros Hab. unfold normalize_address.
  pose proof (equal_ignoring_case_empty a b Hab) as He.
  destruct (String.eqb_spec a "") as [->|Ha], (String.eqb_spec b "") as [->|Hb];
    try reflexivity.
  - destruct Hb. now apply He.
  - destruct Ha. now apply He.
  - now rewrite (equal_ignoring_case_lower a b Hab).
Qed.

Lemma normalize_address_0x (tail : string) :
  normalize_address ("0x" +:+ tail) = "0x" +:+ Py.lower tail.
Proof. reflexivity. Qed.

Lemma address_form_0x_lower (tail : string) :
  (String.length tail <= 40)%nat -> address_form ("0x" +:+ Py.lower tail).
Proof.
  intros Hlen. split; [reflexivity|]. split.
  - rewrite lower_app, lower_idem. reflexivity.
  - rewrite append_length, lower_length. simpl. lia.
Qed.


(* ------------------------------------------------------------------ *)
(** * The token pair of a pool *)

Section Tokens.

Context {World : Type} (post : World -> string -> json -> post_outcome * World).

(** What a call does to the state. *)
Lemma call_effect (method : string) (params : list json)
    (client : JsonRpcClient) (net : Network World) :
  exists (k : nat) (requests : list (string * json)) (w : World),
    snd (call post method params (client, net))
      = (after_requests client k,
         {| world := w; sent := sent net ++ requests |}) /\
    Forall (is_request method params) requests /\
    List.length requests = k /\
    (forall v, fst (call post method params (client, net)) = Ok v ->
               (1 <= List.length requests)%nat).
Proof.
  pose proof (call_loop_state post (rpc_urls client) method params None
                client net) as Hn.
  cbv zeta in Hn.
  change (call_loop post (rpc_urls client) method params None (client, net))
    with (call post method params (client, net)) in Hn.
  destruct Hn as (k & Hk & Hc & Hs & Hr).
  pose proof (call_requests post method params (client, net)) as Hq.
  destruct Hq as (requests & Hsent & HF).
  destruct (call post method params (client, net)) as [r [client' net']].
  simpl in *. exists k, requests, (world net').
  assert (List.length requests = k) as Hlen.
  { rewrite Hsent in Hs. apply app_inv_head in Hs. subst requests.
    rewrite numbered_requests_length, length_firstn. lia. }
  split; [|split; [|split]].
  - subst client'. destruct net' as [w s]. simpl in *. now rewrite Hsent.
  - exact HF.
  - exact Hlen.
  - intros v ->. lia.
Qed.

Lemma get_token0_token1_run (pool : json) (client : JsonRpcClient)
    (net : Network World) :
  get_token0_token1 post pool (client, net) =
    match normalize_address_any pool with
    | inl e => (inl e, (client, net))
    | inr cache_key =>
        match Py.hash_key cache_key with
        | inl e => (inl e, (client, net))
        | inr key =>
            match _pool_tokens_cache client !! key with
            | Some tokens => (inr tokens, (client, net))
            | None =>
                match eth_call post cache_key TOKEN0_SELECTOR (client, net) with
                | (inl e, st1) => (inl e, st1)
                | (inr token0_hex, st1) =>
                    match eth_call post cache_key TOKEN1_SELECTOR st1 with
                    | (inl e, st2) => (inl e, st2)
                    | (inr token1_hex, st2) =>
                        match Py.last_chars_any 40 token0_hex with
                        | inl e => (inl e, st2)
                        | inr tail0 =>
                            match Py.last_chars_any 40 token1_hex with
                            | inl e => (inl e, st2)
                            | inr tail1 =>
                                let tokens :=
                                  (normalize_address ("0x" +:+ tail0),
                                   normalize_address ("0x" +:+ tail1)) in
                                (inr tokens,
                                 (with_pool_tokens (fst st2) key tokens, snd st2))
                            end
                        end
                    end
                end
            end
        end
    end.
Proof.
  unfold get_token0_token1, mbind, prog_bind, pbind, lift, get_client,
    set_client, pret, with_pool_tokens, Ok.
  destruct (normalize_address_any pool) as [e|cache_key]; [reflexivity|].
  destruct (Py.hash_key cache_key) as [e|key]; [reflexivity|].
  cbn [fst snd].
  destruct (_pool_tokens_cache client !! key) as [tokens|]; [reflexivity|].
  destruct (eth_call post cache_key TOKEN0_SELECTOR (client, net))
    as [[e|token0_hex] st1]; [reflexivity|].
  destruct (eth_call post cache_key TOKEN1_SELECTOR st1)
    as [[e|token1_hex] st2]; [reflexivity|].
  destruct (Py.last_chars_any 40 token0_hex) as [e|tail0]; [reflexivity|].
  destruct (Py.last_chars_any 40 token1_hex) as [e|tail1]; [reflexivity|].
  destruct st2 as [client2 net2]. reflexivity.
Qed.

Lemma eth_call_effect (to_addr : json) (data : string)
    (client : JsonRpcClient) (net : Network World) :
  exists (k : nat) (requests : list (string * json)) (w : World),
    snd (eth_call post to_addr data (client, net))
      = (after_requests client k,
         {| world := w; sent := sent net ++ requests |}) /\
    Forall (is_request "eth_call" (eth_call_params to_addr data)) requests /\
    List.length requests = k /\
    (forall v, fst (eth_call post to_addr data (client, net)) = Ok v ->
               (1 <= List.length requests)%nat).
Proof. apply call_effect. Qed.

Lemma after_requests_add (client : JsonRpcClient) (j k : nat) :
  after_requests (after_requests client j) k = after_requests client (j + k).
Proof. unfold after_requests. simpl. f_equal. lia. Qed.

(** Everything a run of [get_token0_token1] does to the state. *)
Lemma get_token0_token1_effect (pool : json) (client client' : JsonRpcClient)
    (net net' : Network World) (r : result (string * string)) :
  get_token0_token1 post pool (client, net) = (r, (client', net')) ->
  exists (k : nat) (requests : list (string * json)),
    sent net' = sent net ++ requests /\
    List.length requests = k /\
    Forall (fun request =>
              exists cache_key selector,
                normalize_address_any pool = Ok cache_key /\
                (selector = TOKEN0_SELECTOR \/ selector = TOKEN1_SELECTOR) /\
                is_request "eth_call" (eth_call_params cache_key selector)
                  request)
           requests /\
    match r with
    | inl _ => client' = after_requests client k
    | inr tokens =>
        exists key,
          pool_key pool = Ok key /\
          client' = with_pool_tokens (after_requests client k) key tokens /\
          (_pool_tokens_cache client !! key = None ->
           (2 <= List.length requests)%nat /\
           address_form (fst tokens) /\ address_form (snd tokens)) /\
          (forall cached, _pool_tokens_cache client !! key = Some cached ->
                          tokens = cached /\ requests = [])
    end.
Proof.
  rewrite get_token0_token1_run. unfold pool_key.
  destruct (normalize_address_any pool) as [e|cache_key] eqn:Hnorm.
  { intros [= <- <- <-]. exists 0%nat, []. rewrite app_nil_r.
    split; [reflexivity|]. split; [reflexivity|]. split; [constructor|].
    now rewrite after_requests_0. }
  cbn [mbind result_bind rbind Ok].
  destruct (Py.hash_key cache_key) as [e|key] eqn:Hkey.
  { intros [= <- <- <-]. exists 0%nat, []. rewrite app_nil_r.
    split; [reflexivity|]. split; [reflexivity|]. split; [constructor|].
    now rewrite after_requests_0. }
  destruct (_pool_tokens_cache client !! key) as [cached|] eqn:Hcache.
  { intros [= <- <- <-]. exists 0%nat, []. rewrite app_nil_r.
    split; [reflexivity|]. split; [reflexivity|]. split; [constructor|].
    exists key. split; [reflexivity|]. split; [|split].
    - rewrite after_requests_0. unfold with_pool_tokens.
      rewrite (insert_id _ _ _ Hcache). now destruct client.
    - intros Hc. rewrite Hcache in Hc. discriminate Hc.
    - intros cached' Hc. rewrite Hcache in Hc. injection Hc as <-. auto. }
  destruct (eth_call_effect cache_key TOKEN0_SELECTOR client net)
    as (k1 & rq1 & w1 & Hst1 & HF1 & Hl1 & Hn1).
  destruct (eth_call post cache_key TOKEN0_SELECTOR (client, net))
    as [[e|token0_hex] st1]; simpl in Hst1; subst st1.
  { intros [= <- <- <-]. exists k1, rq1. split; [reflexivity|].
    split; [exact Hl1|]. split; [|reflexivity].
    eapply List.Forall_impl; [|exact HF1]. intros rq Hrq.
    exists cache_key, TOKEN0_SELECTOR. auto. }
  destruct (eth_call_effect cache_key TOKEN1_SELECTOR (after_requests client k1)
              {| world := w1; sent := sent net ++ rq1 |})
    as (k2 & rq2 & w2 & Hst2 & HF2 & Hl2 & Hn2).
  assert (Forall (fun request =>
                    exists cache_key0 selector,
                      Ok cache_key = Ok cache_key0 /\
                      (selector = TOKEN0_SELECTOR \/ selector = TOKEN1_SELECTOR) /\
                      is_request "eth_call" (eth_call_params cache_key0 selector)
                        request)
                 (rq1 ++ rq2)) as HF.
  { apply Forall_app. split.
    - eapply List.Forall_impl; [|exact HF1]. intros rq Hrq.
      exists cache_key, TOKEN0_SELECTOR. auto.
    - eapply List.Forall_impl; [|exact HF2]. intros rq Hrq.
      exists cache_key, TOKEN1_SELECTOR. auto. }
  destruct (eth_call post cache_key TOKEN1_SELECTOR _)
    as [[e|token1_hex] st2]; simpl in Hst2; subst st2;
    cbn [sent] in *; rewrite <- app_assoc in *.
  { intros [= <- <- <-]. exists (k1 + k2)%nat, (rq1 ++ rq2).
    split; [reflexivity|]. split; [rewrite length_app; lia|].
    split; [exact HF|].
    now rewrite after_requests_add. }
  destruct token0_hex as [| | |h0| |];
    try (intros [= <- <- <-]; exists (k1 + k2)%nat, (rq1 ++ rq2);
         split; [reflexivity|]; split; [rewrite length_app; lia|];
         split; [exact HF|];
         now rewrite after_requests_add).
  destruct token1_hex as [| | |h1| |];
    try (intros [= <- <- <-]; exists (k1 + k2)%nat, (rq1 ++ rq2);
         split; [reflexivity|]; split; [rewrite length_app; lia|];
         split; [exact HF|];
         now rewrite after_requests_add).
  cbn [Py.last_chars_any Ok fst snd]. cbv zeta.
  intros [= <- <- <-]. exists (k1 + k2)%nat, (rq1 ++ rq2).
  split; [reflexivity|]. split; [rewrite length_app; lia|].
  split; [exact HF|].
  exists key. split; [reflexivity|].
  split; [now rewrite after_requests_add|]. split.
  - intros _. split.
    + specialize (Hn1 _ eq_refl). specialize (Hn2 _ eq_refl).
      rewrite length_app. lia.
    + cbn [fst snd]. rewrite !normalize_address_0x.
      split; apply address_form_0x_lower; rewrite last_chars_length; lia.
  - intros cached Hc. rewrite Hc in Hcache. discriminate.
Qed.

(** X5. [get_token0_token1] touches the caches in one way only: when it
    returns, the pool's key maps to the pair it returned, and every other
    entry is as before; when it raises, the token cache is as before (no
    partial entry).  The URLs and the decimals cache never change. *)
Theorem get_token0_token1_cache_update (pool : json)
    (client client' : JsonRpcClient) (net net' : Network World)
    (r : result (string * string)) :
  get_token0_token1 post pool (client, net) = (r, (client', net')) ->
  rpc_urls client' = rpc_urls client /\
  _decimals_cache client' = _decimals_cache client /\
  match r with
  | inl _ => _pool_tokens_cache client' = _pool_tokens_cache client
  | inr tokens =>
      exists key,
        pool_key pool = Ok key /\
        _pool_tokens_cache client' !! key = Some tokens /\
        (forall other, other <> key ->
                       _pool_tokens_cache client' !! other
                       = _pool_tokens_cache client !! other) /\
        (forall cached, _pool_tokens_cache client !! key = Some cached ->
                        tokens = cached)
  end.
Proof.
  intros Hrun.
  destruct (get_token0_token1_effect _ _ _ _ _ _ Hrun)
    as (k & requests & _ & _ & _ & Hr).
  destruct r as [e|tokens].
  - subst client'. repeat split.
  - destruct Hr as (key & Hkey & -> & _ & Hhit). repeat split.
    exists key. split; [exact Hkey|]. cbn [with_pool_tokens _pool_tokens_cache
                                            after_requests].
    split; [apply lookup_insert_eq|]. split.
    + intros other Hother. now apply lookup_insert_ne.
    + intros cached Hc. now destruct (Hhit cached Hc).
Qed.

(** X6. The requests of [get_token0_token1] are [eth_call] requests to the
    normalized pool address, for [token0()] or [token1()], at "latest", and
    nothing else; the request identifier moves on by their number.  A pool
    that is cached costs no request; one that is not costs at least two
    when the lookup returns. *)
Theorem get_token0_token1_requests (pool : json)
    (client client' : JsonRpcClient) (net net' : Network World)
    (r : result (string * string)) :
  get_token0_token1 post pool (client, net) = (r, (client', net')) ->
  exists requests,
    sent net' = sent net ++ requests /\
    _request_id client' = _request_id client + Z.of_nat (List.length requests) /\
    Forall (fun request =>
              exists cache_key selector,
                normalize_address_any pool = Ok cache_key /\
                (selector = TOKEN0_SELECTOR \/ selector = TOKEN1_SELECTOR) /\
                is_request "eth_call" (eth_call_params cache_key selector)
                  request)
           requests /\
    (forall key cached,
        pool_key pool = Ok key ->
        _pool_tokens_cache client !! key = Some cached ->
        requests = [] /\ r = Ok cached) /\
    (forall key tokens,
        pool_key pool = Ok key ->
        _pool_tokens_cache client !! key = None ->
        r = Ok tokens ->
        (2 <= List.length requests)%nat).
Proof.
  intros Hrun.
  destruct (get_token0_token1_effect _ _ _ _ _ _ Hrun)
    as (k & requests & Hsent & Hlen & HF & Hr).
  exists requests. split; [exact Hsent|]. split; [|split; [exact HF|split]].
  - rewrite Hlen. destruct r as [e|tokens].
    + now subst client'.
    + destruct Hr as (key & _ & -> & _). reflexivity.
  - intros key cached Hkey Hcached. pose proof Hkey as Hkey0.
    rewrite get_token0_token1_run in Hrun. unfold pool_key in Hkey.
    destruct (normalize_address_any pool) as [e|cache_key]; [discriminate|].
    cbn [mbind result_bind rbind Ok] in Hkey. rewrite Hkey, Hcached in Hrun.
    injection Hrun as <- <- <-.
    destruct Hr as (key' & Hkey' & _ & _ & Hhit).
    rewrite Hkey0 in Hkey'. injection Hkey' as <-.
    destruct (Hhit cached Hcached) as [_ ->]. auto.
  - intros key tokens Hkey Hnone ->.
    destruct Hr as (key' & Hkey' & _ & Hmiss & _).
    rewrite Hkey in Hkey'. injection Hkey' as <-.
    now destruct (Hmiss Hnone).
Qed.

Lemma pool_key_str (a : string) :
  pool_key (JStr a) = Ok (Py.KStr (normalize_address a)).
Proof. unfold pool_key. rewrite normalize_address_any_str. reflexivity. Qed.

(** X7. Memoization.  After [get_token0_token1] has returned a pair for a
    pool, asking again for a pool with the same key returns that pair
    without a request and without a change of state; a pool address that
    differs in letter case only has the same key. *)
Theorem get_token0_token1_memoized (pool : json) (st st1 : state World)
    (tokens : string * string) :
  get_token0_token1 post pool st = (Ok tokens, st1) ->
  (forall pool',
      pool_key pool' = pool_key pool ->
      get_token0_token1 post pool' st1 = (Ok tokens, st1)) /\
  (forall a a',
      pool = JStr a ->
      equal_ignoring_case a a' = true ->
      get_token0_token1 post (JStr a') st1 = (Ok tokens, st1)).
Proof.
  intros Hrun. destruct st as [client net], st1 as [client1 net1].
  destruct (get_token0_token1_effect _ _ _ _ _ _ Hrun)
    as (k & requests & _ & _ & _ & key & Hkey & Hclient & _).
  assert (_pool_tokens_cache client1 !! key = Some tokens) as Hcached.
  { subst client1. cbn [with_pool_tokens _pool_tokens_cache after_requests].
    apply lookup_insert_eq. }
  assert (forall pool',
             pool_key pool' = pool_key pool ->
             get_token0_token1 post pool' (client1, net1)
             = (Ok tokens, (client1, net1))) as Hsame.
  { intros pool' Hk. rewrite Hkey in Hk. rewrite get_token0_token1_run.
    unfold pool_key in Hk.
    destruct (normalize_address_any pool') as [e|cache_key]; [discriminate|].
    cbn [mbind result_bind rbind Ok] in Hk. rewrite Hk, Hcached. reflexivity. }
  split; [exact Hsame|].
  intros a a' -> Hcase. apply Hsame. rewrite !pool_key_str.
  now rewrite (normalize_address_same_case a a' Hcase).
Qed.


(** X9. A pool that is not a usable key is refused before any request: a
    non-empty value that is not a str raises [AttributeError]
    ([addr.lower()]), an empty list or dict raises [TypeError]
    (unhashable); the state is as before. *)
Theorem get_token0_token1_refuses_pool (pool : json) (st : state World) :
  (Py.truthy pool = true -> (forall a, pool <> JStr a) ->
   get_token0_token1 post pool st = (Raise AttributeError, st)) /\
  (pool = JArr [] \/ pool = JObj [] ->
   get_token0_token1 post pool st = (Raise TypeError, st)).
Proof.
  destruct st as [client net]. rewrite get_token0_token1_run. split.
  - intros Ht Hstr. unfold normalize_address_any. rewrite Ht. cbn [negb].
    destruct pool as [|b|z|a|xs|kvs]; try reflexivity.
    now destruct (Hstr a).
  - intros [->| ->]; reflexivity.
Qed.

End Tokens.

Lemma get_token0_token1_cache_update_witness :
  exists key,
    pool_key example_pool = Ok key /\
    ({[ Py.KStr "0x8ad599c3a0ff1de082011efddc58f1908eb6e6d8" :=
          (example_token0, example_token1) ]} : gmap Py.dict_key (string * string))
      !! key = Some (example_token0, example_token1).
Proof.
  destruct (get_token0_token1_cache_update scripted_post _ _ _ _ _ _
              example_pool_resolves) as (_ & _ & key & Hkey & Hlookup & _).
  exists key. split; [exact Hkey|exact Hlookup].
Defined.

Lemma get_token0_token1_requests_witness :
  exists requests : list (string * json),
    (2 <= List.length requests)%nat /\
    Forall (fun request =>
              exists cache_key selector,
                normalize_address_any example_pool = Ok cache_key /\
                (selector = TOKEN0_SELECTOR \/ selector = TOKEN1_SELECTOR) /\
                is_request "eth_call" (eth_call_params cache_key selector)
                  request)
           requests.
Proof.
  destruct (get_token0_token1_requests scripted_post _ _ _ _ _ _
              example_pool_resolves) as (requests & _ & _ & HF & _ & Hmiss).
  exists requests. split; [|exact HF].
  apply (Hmiss (Py.KStr "0x8ad599c3a0ff1de082011efddc58f1908eb6e6d8")
           (example_token0, example_token1)); reflexivity.
Defined.

Lemma get_token0_token1_memoized_witness :
  get_token0_token1 scripted_post
    (JStr "0x8AD599C3A0FF1DE082011EFDDC58F1908EB6E6D8")
    (snd (get_token0_token1 scripted_post example_pool
            (fresh_client ["http://node.example"],
             scripted [reply (JStr example_token0_word);
                       reply (JStr example_token1_word)])))
  = (Ok (example_token0, example_token1),
     snd (get_token0_token1 scripted_post example_pool
            (fresh_client ["http://node.example"],
             scripted [reply (JStr example_token0_word);
                       reply (JStr example_token1_word)]))).
Proof.
  rewrite example_pool_resolves. cbn [snd].
  apply (proj2 (get_token0_token1_memoized scripted_post _ _ _ _
                  example_pool_resolves)
           "0x8ad599c3A0ff1De082011EFDDc58f1908eb6e6D8").
  - reflexivity.
  - vm_compute. reflexivity.
Defined.


Lemma get_token0_token1_refuses_pool_witness :
  get_token0_token1 scripted_post (JInt 7)
    (fresh_client ["http://node.example"], scripted [])
  = (Raise AttributeError, (fresh_client ["http://node.example"], scripted [])) /\
  get_token0_token1 scripted_post (JArr [])
    (fresh_client ["http://node.example"], scripted [])
  = (Raise TypeError, (fresh_client ["http://node.example"], scripted [])).
Proof.
  split.
  - apply (proj1 (get_token0_token1_refuses_pool scripted_post (JInt 7) _));
      [reflexivity|discriminate].
  - apply (proj2 (get_token0_token1_refuses_pool scripted_post (JArr []) _)).
    now left.
Defined.

(* ------------------------------------------------------------------ *)
(** * The decimals of a token *)

Section Decimals.

Context {World : Type} (post : World -> string -> json -> post_outcome * World).

Lemma get_decimals_run (token : string) (client : JsonRpcClient)
    (net : Network World) :
  get_decimals post token (client, net) =
    let cache_key := normalize_address token in
    match _decimals_cache client !! cache_key with
    | Some decimals => (inr decimals, (client, net))
    | None =>
        match eth_call post (JStr cache_key) DECIMALS_SELECTOR (client, net) with
        | (inl e, st1) => (inl e, st1)
        | (inr decimals_hex, st1) =>
            match Py.int_base16_any decimals_hex with
            | inl e => (inl e, st1)
            | inr decimals =>
                (inr decimals,
                 (with_decimals (fst st1) cache_key decimals, snd st1))
            end
        end
    end.
Proof.
  unfold get_decimals, mbind, prog_bind, pbind, lift, get_client,
    set_client, pret, with_decimals, Ok.
  cbv zeta. cbn [fst snd].
  destruct (_decimals_cache client !! normalize_address token) as [d|];
    [reflexivity|].
  destruct (eth_call post (JStr (normalize_address token)) DECIMALS_SELECTOR
              (client, net)) as [[e|decimals_hex] st1]; [reflexivity|].
  destruct (Py.int_base16_any decimals_hex) as [e|d]; [reflexivity|].
  destruct st1 as [client1 net1]. reflexivity.
Qed.

(** Everything a run of [get_decimals] does to the state. *)
Lemma get_decimals_effect (token : string) (client client' : JsonRpcClient)
    (net net' : Network World) (r : result Z) :
  get_decimals post token (client, net) = (r, (client', net')) ->
  exists (k : nat) (requests : list (string * json)),
    sent net' = sent net ++ requests /\
    List.length requests = k /\
    Forall (is_request "eth_call"
              (eth_call_params (JStr (normalize_address token))
                 DECIMALS_SELECTOR))
           requests /\
    match r with
    | inl _ => client' = after_requests client k
    | inr decimals =>
        client' = with_decimals (after_requests client k)
                    (normalize_address token) decimals /\
        (_decimals_cache client !! normalize_address token = None ->
         (1 <= List.length requests)%nat) /\
        (forall cached,
            _decimals_cache client !! normalize_address token = Some cached ->
            decimals = cached /\ requests = [])
    end.
Proof.
  rewrite get_decimals_run. cbv zeta.
  destruct (_decimals_cache client !! normalize_address token) as [cached|]
    eqn:Hcache.
  { intros [= <- <- <-]. exists 0%nat, []. rewrite app_nil_r.
    split; [reflexivity|]. split; [reflexivity|]. split; [constructor|].
    split; [|split].
    - rewrite after_requests_0. unfold with_decimals.
      rewrite (insert_id _ _ _ Hcache). now destruct client.
    - discriminate.
    - intros cached' [= <-]. auto. }
  destruct (eth_call_effect post (JStr (normalize_address token))
              DECIMALS_SELECTOR client net)
    as (k1 & rq1 & w1 & Hst1 & HF1 & Hl1 & Hn1).
  destruct (eth_call post (JStr (normalize_address token)) DECIMALS_SELECTOR
              (client, net)) as [[e|decimals_hex] st1]; simpl in Hst1; subst st1.
  { intros [= <- <- <-]. exists k1, rq1. auto. }
  destruct (Py.int_base16_any decimals_hex) as [e|decimals].
  { intros [= <- <- <-]. exists k1, rq1. auto. }
  cbn [fst snd]. intros [= <- <- <-]. exists k1, rq1.
  split; [reflexivity|]. split; [exact Hl1|]. split; [exact HF1|].
  split; [reflexivity|]. split.
  - intros _. exact (Hn1 _ eq_refl).
  - discriminate.
Qed.

(** X10. [get_decimals] touches the caches in one way only: when it
    returns, the normalized token address maps to the value it returned
    and every other entry is as before; when it raises (no endpoint
    answers, or the answer is not hexadecimal text), the decimals cache is
    as before.  The URLs and the token-pair cache never change. *)
Theorem get_decimals_cache_update (token : string)
    (client client' : JsonRpcClient) (net net' : Network World)
    (r : result Z) :
  get_decimals post token (client, net) = (r, (client', net')) ->
  rpc_urls client' = rpc_urls client /\
  _pool_tokens_cache client' = _pool_tokens_cache client /\
  match r with
  | inl _ => _decimals_cache client' = _decimals_cache client
  | inr decimals =>
      _decimals_cache client' !! normalize_address token = Some decimals /\
      (forall other, other <> normalize_address token ->
                     _decimals_cache client' !! other
                     = _decimals_cache client !! other) /\
      (forall cached,
          _decimals_cache client !! normalize_address token = Some cached ->
          decimals = cached)
  end.
Proof.
  intros Hrun.
  destruct (get_decimals_effect _ _ _ _ _ _ Hrun)
    as (k & requests & _ & _ & _ & Hr).
  destruct r as [e|decimals].
  - subst client'. repeat split.
  - destruct Hr as (-> & _ & Hhit). repeat split.
    + cbn [with_decimals _decimals_cache after_requests].
      apply lookup_insert_eq.
    + intros other Hother. cbn [with_decimals _decimals_cache after_requests].
      now apply lookup_insert_ne.
    + intros cached Hc. now destruct (Hhit cached Hc).
Qed.

(** X11. Memoization.  After [get_decimals] has returned for a token,
    asking again, also with the address in another letter case, returns
    the same value without a request and without a change of state.  The
    requests of a run are [eth_call] requests for [decimals()] to the
    normalized token address at "latest", and nothing else. *)
Theorem get_decimals_memoized (token : string) (st st1 : state World)
    (decimals : Z) :
  get_decimals post token st = (Ok decimals, st1) ->
  (forall token',
      equal_ignoring_case token token' = true ->
      get_decimals post token' st1 = (Ok decimals, st1)) /\
  exists requests,
    sent (snd st1) = sent (snd st) ++ requests /\
    _request_id (fst st1)
      = _request_id (fst st) + Z.of_nat (List.length requests) /\
    Forall (is_request "eth_call"
              (eth_call_params (JStr (normalize_address token))
                 DECIMALS_SELECTOR))
           requests.
Proof.
  intros Hrun. destruct st as [client net], st1 as [client1 net1].
  destruct (get_decimals_effect _ _ _ _ _ _ Hrun)
    as (k & requests & Hsent & Hlen & HF & Hc & _).
  split.
  - intros token' Hcase.
    assert (_decimals_cache client1 !! normalize_address token
            = Some decimals) as Hcached.
    { rewrite Hc.
      cbn [with_decimals _decimals_cache after_requests].
      apply lookup_insert_eq. }
    rewrite get_decimals_run. cbv zeta.
    rewrite <- (normalize_address_same_case token token' Hcase), Hcached.
    reflexivity.
  - exists requests. cbn [fst snd]. split; [exact Hsent|].
    split; [|exact HF]. subst client1. now rewrite Hlen.
Qed.

End Decimals.

Lemma example_decimals_resolve :
  get_decimals scripted_post "0xA0b86991c6218b36c1d19D4a2e9Eb0cE3606eB48"
    (fresh_client ["http://node.example"], scripted [reply (JStr "0x06")])
  = (Ok 6,
     (with_decimals (after_requests (fresh_client ["http://node.example"]) 1)
        example_token0 6,
      {| world := [];
         sent := [("http://node.example",
                   request_payload 1 "eth_call"
                     (eth_call_params (JStr example_token0)
                        DECIMALS_SELECTOR))] |})).
Proof. vm_compute. reflexivity. Qed.

Lemma get_decimals_cache_update_witness :
  _decimals_cache
    (with_decimals (after_requests (fresh_client ["http://node.example"]) 1)
       example_token0 6)
    !! normalize_address "0xA0b86991c6218b36c1d19D4a2e9Eb0cE3606eB48"
  = Some 6.
Proof.
  exact (proj1 (proj2 (proj2 (get_decimals_cache_update scripted_post _ _ _ _ _ _
                                example_decimals_resolve)))).
Defined.

Lemma get_decimals_memoized_witness :
  get_decimals scripted_post example_token0
    (with_decimals (after_requests (fresh_client ["http://node.example"]) 1)
       example_token0 6,
     {| world := [];
        sent := [("http://node.example",
                  request_payload 1 "eth_call"
                    (eth_call_params (JStr example_token0)
                       DECIMALS_SELECTOR))] |})
  = (Ok 6,
     (with_decimals (after_requests (fresh_client ["http://node.example"]) 1)
        example_token0 6,
      {| world := [];
         sent := [("http://node.example",
                   request_payload 1 "eth_call"
                     (eth_call_params (JStr example_token0)
                        DECIMALS_SELECTOR))] |})).
Proof.
  apply (proj1 (get_decimals_memoized scripted_post _ _ _ _
                  example_decimals_resolve)).
  vm_compute. reflexivity.
Defined.

(* ------------------------------------------------------------------ *)
(** * More on the swap direction *)

Section Direction.

Context {World : Type} (post : World -> string -> json -> post_outcome * World).

(** X12. Whatever [resolve_swap_tokens] returns, both amounts of the result
    are strictly positive, and the result is one of the two assignments:
    token0 in and token1 out with [(amount0, -amount1)], or the mirror.
    The state it leaves is the one the lookup of the pool left, whether it
    returns or raises. *)
Theorem resolve_swap_tokens_positive_amounts (swap : SwapEvent)
    (st st' : state World) (r : result (string * string * Z * Z)) :
  resolve_swap_tokens post swap st = (r, st') ->
  st' = snd (get_token0_token1 post (pool swap) st) /\
  (forall token_in token_out amount_in amount_out,
      r = Ok (token_in, token_out, amount_in, amount_out) ->
      0 < amount_in /\ 0 < amount_out /\
      exists token0 token1,
        get_token0_token1 post (pool swap) st = (Ok (token0, token1), st') /\
        ((token_in, token_out, amount_in, amount_out)
           = (token0, token1, amount0 swap, - amount1 swap)
         \/ (token_in, token_out, amount_in, amount_out)
           = (token1, token0, amount1 swap, - amount0 swap))).
Proof.
  rewrite resolve_swap_tokens_unfold.
  destruct (get_token0_token1 post (pool swap) st) as [[e|[token0 token1]] st1].
  - intros [= <- <-]. split; [reflexivity|discriminate].
  - destruct ((0 <? amount0 swap) && (amount1 swap <? 0)) eqn:H01.
    + intros [= <- <-]. split; [reflexivity|].
      intros ? ? ? ? [= <- <- <- <-].
      apply andb_true_iff in H01. destruct H01 as [H0 H1].
      apply Z.ltb_lt in H0, H1. split; [lia|]. split; [lia|].
      exists token0, token1. auto.
    + destruct ((0 <? amount1 swap) && (amount0 swap <? 0)) eqn:H10.
      * intros [= <- <-]. split; [reflexivity|].
        intros ? ? ? ? [= <- <- <- <-].
        apply andb_true_iff in H10. destruct H10 as [H1 H0].
        apply Z.ltb_lt in H0, H1. split; [lia|]. split; [lia|].
        exists token0, token1. auto.
      * intros [= <- <-]. split; [reflexivity|discriminate].
Qed.

End Direction.

Lemma resolve_swap_tokens_positive_amounts_witness :
  0 < 2000000000000000000 /\ 0 < 1000000.
Proof.
  destruct (proj2 (resolve_swap_tokens_positive_amounts scripted_post
                     (example_swap (-1000000) 2000000000000000000)
                     (fresh_client ["http://node.example"],
                      scripted [reply (JStr example_token0_word);
                                reply (JStr example_token1_word)])
                     (snd (resolve_swap_tokens scripted_post
                             (example_swap (-1000000) 2000000000000000000)
                             (fresh_client ["http://node.example"],
                              scripted [reply (JStr example_token0_word);
                                        reply (JStr example_token1_word)])))
                     (Ok (example_token1, example_token0,
                          2000000000000000000, 1000000))
                     ltac:(vm_compute; reflexivity))
              example_token1 example_token0 2000000000000000000 1000000
              eq_refl) as (Hin & Hout & _).
  split; assumption.
Defined.

(* ------------------------------------------------------------------ *)
(** * The events the parser builds *)















(* ------------------------------------------------------------------ *)
(** * The orchestrator: early exits and the assembled result *)

Section Pipeline.

Context {World : Type} (post : World -> string -> json -> post_outcome * World).

Lemma prog_bind_raise {A B : Type} (m : prog World A) (k : A -> prog World B)
    (st st1 : state World) (e : exn) :
  m st = (Raise e, st1) -> (m ≫= k) st = (Raise e, st1).
Proof. unfold mbind, prog_bind, pbind. now intros ->. Qed.

(** X14. Without a non-empty URL the decode raises "RPC_URL is empty" at
    once: no request is sent and the network is as before. *)
Theorem decode_without_urls (tx_hash : string) (urls : list string)
    (net : Network World) :
  Forall (fun url => url = "") urls ->
  decode_uniswap_v3_swap post tx_hash urls net
    = (Raise (RpcError RpcUrlEmpty), net).
Proof.
  intros Hempty. unfold decode_uniswap_v3_swap, JsonRpcClient_init.
  assert (List.filter (fun url => negb (String.eqb url "")) urls = []) as ->.
  { induction Hempty as [|u urls -> _ IH]; [reflexivity|]. simpl. exact IH. }
  reflexivity.
Qed.

(** X15. The receipt fetch decides first: when it raises, the decode raises
    the same exception; when its result is [null], the decode raises
    "receipt not found".  In both cases the requests sent are those of the
    receipt fetch. *)
Theorem decode_receipt_missing (tx_hash : string) (urls : list string)
    (net : Network World) (client : JsonRpcClient)
    (r : result json) (st1 : state World) :
  JsonRpcClient_init urls = Ok client ->
  call post "eth_getTransactionReceipt" [JStr tx_hash] (client, net)
    = (r, st1) ->
  (forall e, r = Raise e ->
             decode_uniswap_v3_swap post tx_hash urls net = (Raise e, snd st1)) /\
  (r = Ok JNull ->
   decode_uniswap_v3_swap post tx_hash urls net
     = (Raise (RpcError (ReceiptNotFound tx_hash)), snd st1)) /\
  exists requests,
    sent (snd st1) = sent net ++ requests /\
    Forall (is_request "eth_getTransactionReceipt" [JStr tx_hash]) requests.
Proof.
  intros Hinit Hcall. split; [|split].
  - intros e ->. unfold decode_uniswap_v3_swap. rewrite Hinit. cbn [Ok].
    unfold decode_with_client. now rewrite (prog_bind_raise _ _ _ _ _ Hcall).
  - intros ->. unfold decode_uniswap_v3_swap. rewrite Hinit. cbn [Ok].
    unfold decode_with_client. now rewrite (prog_bind_run _ _ _ _ _ Hcall).
  - pose proof (call_requests post "eth_getTransactionReceipt" [JStr tx_hash]
                  (client, net)) as Hreq.
    rewrite Hcall in Hreq. exact Hreq.
Qed.

(** X16. A successful transaction without a Swap event: when the receipt
    has the status "0x1" and the parser returns no event (in particular
    when the receipt has no "logs" member), the decode raises "no Uniswap
    V3 Swap event found", after the receipt fetch and the transaction
    fetch and no other request; when the transaction fetch raises, the
    decode raises the same exception. *)
Theorem decode_without_swap_event (tx_hash : string) (urls : list string)
    (net : Network World) (client : JsonRpcClient)
    (receipt : list (string * json)) (st1 st2 : state World)
    (tx : result json) :
  JsonRpcClient_init urls = Ok client ->
  call post "eth_getTransactionReceipt" [JStr tx_hash] (client, net)
    = (Ok (JObj receipt), st1) ->
  Py.assoc "status" receipt = Some (JStr "0x1") ->
  call post "eth_getTransactionByHash" [JStr tx_hash] st1 = (tx, st2) ->
  (forall e, tx = Raise e ->
             decode_uniswap_v3_swap post tx_hash urls net = (Raise e, snd st2)) /\
  (forall v, tx = Ok v ->
             parse_swap_logs (JObj receipt) = Ok [] ->
             decode_uniswap_v3_swap post tx_hash urls net
               = (Raise (RpcError (NoSwapEvent tx_hash)), snd st2)) /\
  (Py.assoc "logs" receipt = None -> parse_swap_logs (JObj receipt) = Ok []) /\
  exists requests1 requests2,
    sent (snd st2) = sent net ++ requests1 ++ requests2 /\
    Forall (is_request "eth_getTransactionReceipt" [JStr tx_hash]) requests1 /\
    Forall (is_request "eth_getTransactionByHash" [JStr tx_hash]) requests2.
Proof.
  intros Hinit Hreceipt Hstatus Htx.
  assert (Hhead :
            forall rest : prog World json,
              (status ← lift World (Py.get (JObj receipt) "status" JNull);
               if negb (Py.eq_str status "0x1")
               then raise World (RpcError (TransactionFailed tx_hash))
               else rest) st1 = rest st1).
  { intros rest. unfold mbind, prog_bind, pbind, lift. cbn [Py.get Ok].
    rewrite Hstatus. reflexivity. }
  split; [|split; [|split]].
  - intros e ->. unfold decode_uniswap_v3_swap. rewrite Hinit. cbn [Ok].
    unfold decode_with_client. rewrite (prog_bind_run _ _ _ _ _ Hreceipt).
    rewrite Hhead. now rewrite (prog_bind_raise _ _ _ _ _ Htx).
  - intros v -> Hparse. unfold decode_uniswap_v3_swap. rewrite Hinit. cbn [Ok].
    unfold decode_with_client. rewrite (prog_bind_run _ _ _ _ _ Hreceipt).
    rewrite Hhead. rewrite (prog_bind_run _ _ _ _ _ Htx).
    unfold mbind, prog_bind, pbind, lift. rewrite Hparse. reflexivity.
  - intros Hlogs. unfold parse_swap_logs, mbind, result_bind, rbind.
    cbn [Py.get Ok]. rewrite Hlogs. reflexivity.
  - pose proof (call_requests post "eth_getTransactionReceipt" [JStr tx_hash]
                  (client, net)) as (requests1 & Hs1 & HF1).
    rewrite Hreceipt in Hs1. cbn [snd] in Hs1.
    pose proof (call_requests post "eth_getTransactionByHash" [JStr tx_hash]
                  st1) as (requests2 & Hs2 & HF2).
    rewrite Htx in Hs2. cbn [snd] in Hs2.
    exists requests1, requests2. split; [|split; assumption].
    rewrite Hs2, Hs1. now rewrite <- app_assoc.
Qed.



End Pipeline.

Lemma decode_without_urls_witness :
  decode_uniswap_v3_swap scripted_post example_tx_hash [""; ""]
    (scripted [reply JNull])
  = (Raise (RpcError RpcUrlEmpty), scripted [reply JNull]).
Proof.
  apply (decode_without_urls scripted_post example_tx_hash [""; ""]
           (scripted [reply JNull])).
  repeat constructor.
Defined.

Lemma decode_receipt_missing_witness :
  decode_uniswap_v3_swap scripted_post example_tx_hash example_urls
    (scripted [reply JNull])
  = (Raise (RpcError (ReceiptNotFound example_tx_hash)),
     snd (snd (call scripted_post "eth_getTransactionReceipt"
                 [JStr example_tx_hash]
                 (fresh_client ["http://node.example"],
                  scripted [reply JNull])))).
Proof.
  apply (proj1 (proj2 (decode_receipt_missing scripted_post example_tx_hash
                         example_urls (scripted [reply JNull])
                         (fresh_client ["http://node.example"])
                         (Ok JNull)
                         (snd (call scripted_post "eth_getTransactionReceipt"
                                 [JStr example_tx_hash]
                                 (fresh_client ["http://node.example"],
                                  scripted [reply JNull])))
                         ltac:(vm_compute; reflexivity)
                         ltac:(vm_compute; reflexivity)))).
  reflexivity.
Defined.

Lemma decode_without_swap_event_witness :
  decode_uniswap_v3_swap scripted_post example_tx_hash example_urls
    (scripted [reply (example_receipt [example_transfer_log]);
               reply example_tx])
  = (Raise (RpcError (NoSwapEvent example_tx_hash)),
     {| world := [];
        sent := [("http://node.example",
                  request_payload 1 "eth_getTransactionReceipt"
                    [JStr example_tx_hash]);
                 ("http://node.example",
                  request_payload 2 "eth_getTransactionByHash"
                    [JStr example_tx_hash])] |}).
Proof.
  apply (proj1 (proj2 (decode_without_swap_event scripted_post example_tx_hash
                         example_urls
                         (scripted [reply (example_receipt [example_transfer_log]);
                                    reply example_tx])
                         (fresh_client ["http://node.example"])
                         [("status", JStr "0x1");
                          ("from", JStr "0xAb5801a7D398351b8bE11C439e05C5B3259aeC9B");
                          ("logs", JArr [example_transfer_log])]
                         (snd (call scripted_post "eth_getTransactionReceipt"
                                 [JStr example_tx_hash]
                                 (fresh_client ["http://node.example"],
                                  scripted [reply (example_receipt
                                                     [example_transfer_log]);
                                            reply example_tx])))
                         (next_request (next_request
                                          (fresh_client ["http://node.example"])),
                          {| world := [];
                             sent := [("http://node.example",
                                       request_payload 1 "eth_getTransactionReceipt"
                                         [JStr example_tx_hash]);
                                      ("http://node.example",
                                       request_payload 2 "eth_getTransactionByHash"
                                         [JStr example_tx_hash])] |})
                         (Ok example_tx)
                         ltac:(vm_compute; reflexivity)
                         ltac:(vm_compute; reflexivity)
                         ltac:(vm_compute; reflexivity)
                         ltac:(vm_compute; reflexivity)))
           example_tx eq_refl).
  vm_compute. reflexivity.
Defined.

